(** * langnet-web: the boilerplate Starlette backend

    A shallow embedding of [backend/old/boilerplate_app/web/routes.py] and
    [backend/old/boilerplate_app/web/__init__.py], and the properties of the
    six API handlers, of the application state and of the static routes.

    Python values are an inductive type, Python floats are IEEE binary64
    numbers (the kernel's primitive floats), a polars DataFrame is an ordered
    list of named, typed columns, and a handler is a computation in a monad
    that threads the application's world (its state and the file system),
    may raise, and records the external calls it makes. *)

From Stdlib Require Import ZArith QArith List String Ascii Bool Lia.
From Stdlib Require Import DecimalString.
From Stdlib Require Import Floats.
Import ListNotations.

Local Open Scope string_scope.
Local Open Scope Z_scope.

Set Warnings "-register-all".

(** ** Python values *)

Module Py.

(** The values that flow through the handlers: what [json.loads] produces,
    what [DataFrame.to_dicts] builds and what [JSONResponse] receives.
    A [dict] keeps its insertion order, hence an association list. *)
Inductive value : Type :=
| None_
| Bool (b : bool)
| Int (z : Z)
| Float (f : float)
| Str (s : string)
| List (l : list value)
| Dict (d : list (string * value)).

(** Exceptions, as far as the program can meet them. *)
Inductive exn : Type :=
| AttributeError (what : string)
| JSONDecodeError
| ValueError (what : string)
| UnicodeEncodeError
| FileNotFoundError
| IsADirectoryError
| RuntimeError (what : string)
| ShapeError
| DuplicateError (name : string)
| ColumnNotFoundError (name : string)
| InvalidOperationError
| DatabaseError (what : string)
| TemplateNotFound (name : string)
| HTTPException (status : Z).

Definition result (A : Type) : Type := (exn + A)%type.

(** Key lookup in a dict. *)
Fixpoint lookup (key : string) (d : list (string * value)) : option value :=
  match d with
  | [] => None
  | (k, v) :: d' => if String.eqb k key then Some v else lookup key d'
  end.

(** [data.get(key, default)]: a method of dicts; the other values a JSON
    body can decode to have no attribute [get]. *)
Definition get (data : value) (key : string) (default : value) : result value :=
  match data with
  | Dict d =>
      match lookup key d with
      | Some v => inr v
      | None => inr default
      end
  | _ => inl (AttributeError "get")
  end.

(** Decimal rendering of an [int]. *)
Definition str_of_int (z : Z) : string :=
  NilZero.string_of_int (Z.to_int z).

Section Str.
(** [repr] of floats and of containers is CPython's own code (shortest
    round-trip digits, quoting of the nested strings); it is a parameter
    here. *)
Variable repr : value -> string.

(** [str(v)], which is what an f-string field [{v}] renders. *)
Definition str (v : value) : string :=
  match v with
  | None_ => "None"
  | Bool true => "True"
  | Bool false => "False"
  | Int z => str_of_int z
  | Str s => s
  | Float _ | List _ | Dict _ => repr v
  end.
End Str.

(** The rational number a finite float stands for. *)
Definition exact (f : float) : option Q :=
  match Prim2SF f with
  | S754_zero _ => Some (0 # 1)
  | S754_finite s m e =>
      Some (Qmult (inject_Z (if s then Z.neg m else Z.pos m)) (Qpower (2 # 1) e))
  | _ => None
  end.

(** A float that JSON can carry: neither NaN nor an infinity. *)
Definition finite (f : float) : bool :=
  negb (PrimFloat.is_nan f || PrimFloat.is_infinity f).

(** [json.dumps(..., allow_nan=False)] refuses the non-finite floats. *)
Fixpoint finite_floats (v : value) : bool :=
  match v with
  | Float f => finite f
  | List l => forallb finite_floats l
  | Dict d => forallb (fun kv => finite_floats (snd kv)) d
  | _ => true
  end.

(** A [str] is held as its UTF-8 bytes.  A [str] can also hold a lone
    surrogate (the JSON text ["\ud800"] decodes to one), which UTF-8 cannot
    carry; it is held as the three bytes ED A0..BF 80..BF, which no other
    character begins with.  [s.encode('utf-8')] succeeds when the string
    holds none. *)
Definition surrogate (a b : ascii) : bool :=
  ((N_of_ascii a =? 237) && (160 <=? N_of_ascii b) && (N_of_ascii b <=? 191))%N.

Fixpoint encodable (s : string) : bool :=
  match s with
  | EmptyString => true
  | String a rest =>
      match rest with
      | EmptyString => true
      | String b _ => if surrogate a b then false else encodable rest
      end
  end.

(** The strings of a value, keys included, can all be encoded. *)
Fixpoint encodable_strings (v : value) : bool :=
  match v with
  | Str s => encodable s
  | List l => forallb encodable_strings l
  | Dict d => forallb (fun kv => encodable (fst kv) && encodable_strings (snd kv)) d
  | _ => true
  end.

(** What [JSONResponse.render] accepts: [json.dumps] passes and the text
    it gives can be encoded. *)
Definition json_compliant (v : value) : bool :=
  finite_floats v && encodable_strings v.

End Py.

(** ** polars: the part of the table library the handlers use *)

Module pl.

Import Py.

(** A column: a data type and its values. *)
Inductive Series : Type :=
| Utf8 (l : list string)
| Int64 (l : list Z)
| Float64 (l : list float).

Definition len (s : Series) : nat :=
  match s with
  | Utf8 l => List.length l
  | Int64 l => List.length l
  | Float64 l => List.length l
  end.

(** The columns of a frame, in order. *)
Definition DataFrame : Type := list (string * Series).

Definition height (df : DataFrame) : nat :=
  match df with
  | [] => 0%nat
  | (_, s) :: _ => len s
  end.

Fixpoint first_duplicate (l : list string) : option string :=
  match l with
  | [] => None
  | x :: l' =>
      if existsb (String.eqb x) l' then Some x else first_duplicate l'
  end.

(** The checks every frame construction makes: distinct column names, one
    common height. *)
Definition check_frame (cols : list (string * Series)) : result DataFrame :=
  match first_duplicate (map fst cols) with
  | Some n => inl (DuplicateError n)
  | None =>
      if forallb (fun c => Nat.eqb (len (snd c)) (height cols)) cols
      then inr cols
      else inl ShapeError
  end.

(** [pl.DataFrame({name: [values], ...})] on homogeneous literal lists. *)
Definition DataFrame_ (data : list (string * Series)) : result DataFrame :=
  check_frame data.

(** Expressions. *)
Inductive Expr : Type :=
| col (name : string)
| mul (a b : Expr)
| alias (e : Expr) (name : string).

Fixpoint column (name : string) (df : DataFrame) : option Series :=
  match df with
  | [] => None
  | (n, s) :: df' => if String.eqb n name then Some s else column name df'
  end.

(** Int64 arithmetic wraps around. *)
Definition wrap_i64 (z : Z) : Z :=
  (z + 2 ^ 63) mod 2 ^ 64 - 2 ^ 63.

(** The cast Int64 -> Float64: the nearest binary64 number. *)
Definition f64_of_i64 (z : Z) : float :=
  SF2Prim (binary_normalize prec emax z 0 false).

Fixpoint zip_with {A B C : Type} (f : A -> B -> C) (l : list A) (r : list B)
  : option (list C) :=
  match l, r with
  | [], [] => Some []
  | x :: l', y :: r' =>
      match zip_with f l' r' with
      | Some t => Some (f x y :: t)
      | None => None
      end
  | _, _ => None
  end.

Definition lift_zip {A : Type} (o : option A) : result A :=
  match o with
  | Some x => inr x
  | None => inl ShapeError
  end.

(** [a * b] on two columns: element-wise, in the common super type. *)
Definition mul_series (a b : Series) : result Series :=
  match a, b with
  | Int64 x, Int64 y =>
      match lift_zip (zip_with (fun p q => wrap_i64 (p * q)) x y) with
      | inr l => inr (Int64 l)
      | inl e => inl e
      end
  | Float64 x, Float64 y =>
      match lift_zip (zip_with PrimFloat.mul x y) with
      | inr l => inr (Float64 l)
      | inl e => inl e
      end
  | Float64 x, Int64 y =>
      match lift_zip (zip_with (fun p q => PrimFloat.mul p (f64_of_i64 q)) x y) with
      | inr l => inr (Float64 l)
      | inl e => inl e
      end
  | Int64 x, Float64 y =>
      match lift_zip (zip_with (fun p q => PrimFloat.mul (f64_of_i64 p) q) x y) with
      | inr l => inr (Float64 l)
      | inl e => inl e
      end
  | _, _ => inl InvalidOperationError
  end.

(** Evaluation of an expression on a frame: the output name and the
    column.  A product keeps the name of its left operand. *)
Fixpoint eval (df : DataFrame) (e : Expr) : result (string * Series) :=
  match e with
  | col name =>
      match column name df with
      | Some s => inr (name, s)
      | None => inl (ColumnNotFoundError name)
      end
  | mul a b =>
      match eval df a with
      | inl x => inl x
      | inr (n, sa) =>
          match eval df b with
          | inl x => inl x
          | inr (_, sb) =>
              match mul_series sa sb with
              | inl x => inl x
              | inr s => inr (n, s)
              end
          end
      end
  | alias e' name =>
      match eval df e' with
      | inl x => inl x
      | inr (_, s) => inr (name, s)
      end
  end.

Fixpoint eval_all (df : DataFrame) (es : list Expr)
  : result (list (string * Series)) :=
  match es with
  | [] => inr []
  | e :: es' =>
      match eval df e with
      | inl x => inl x
      | inr c =>
          match eval_all df es' with
          | inl x => inl x
          | inr cs => inr (c :: cs)
          end
      end
  end.

(** [df.select([e1; ...])]. *)
Definition select (df : DataFrame) (es : list Expr) : result DataFrame :=
  match eval_all df es with
  | inl x => inl x
  | inr cs => check_frame cs
  end.

(** The value of a column at a row, as a Python value. *)
Definition item (s : Series) (i : nat) : value :=
  match s with
  | Utf8 l => match nth_error l i with Some x => Str x | None => None_ end
  | Int64 l => match nth_error l i with Some x => Int x | None => None_ end
  | Float64 l => match nth_error l i with Some x => Float x | None => None_ end
  end.

Definition row (df : DataFrame) (i : nat) : value :=
  Dict (map (fun c => (fst c, item (snd c) i)) df).

(** [df.to_dicts()]: one dict per row, the columns in order. *)
Definition to_dicts (df : DataFrame) : value :=
  List (map (row df) (seq 0 (height df))).

End pl.

(** ** The world a handler runs in *)

(** A path, as its components: [Path(p).parent] drops the last one and
    [p / name] adds one. *)
Definition Path : Type := list string.

Definition parent (p : Path) : Path := removelast p.

Definition join (p : Path) (name : string) : Path := (p ++ [name])%list.

Declare Scope path_scope.
Delimit Scope path_scope with path.
Infix "/" := join : path_scope.

(** The file system: what is found at a path. *)
Inductive node : Type :=
| File (content : string)
| Directory.

Definition FS : Type := Path -> option node.

(** A database connection is whatever object answers [sql(query).pl()]. *)
Record Connection : Type := mkConnection {
  sql_pl : string -> Py.result pl.DataFrame
}.

(** What the attribute [db] holds once it is assigned. *)
Inductive DbHandle : Type :=
| NoneHandle
| Conn (c : Connection).

(** [app.state]: the attribute [db] is missing until it is assigned. *)
Record State : Type := mkState {
  db : option DbHandle
}.

Record World : Type := mkWorld {
  state : State;
  fs : FS
}.

(** The calls that leave the program. *)
Inductive Call : Type :=
| CallSql (query : string)
| CallOpen (p : Path)
| CallStat (p : Path)
| CallRender (template : string).

(** ** The monad of handlers: world passing, exceptions, and the calls made *)

Record Outcome (A : Type) : Type := mkOutcome {
  returned : Py.result A;
  after : World;
  calls : list Call
}.

Arguments mkOutcome {A} _ _ _.
Arguments returned {A} _.
Arguments after {A} _.
Arguments calls {A} _.

Definition M (A : Type) : Type := World -> Outcome A.

Definition ret {A : Type} (x : A) : M A :=
  fun w => mkOutcome (inr x) w [].

Definition raise {A : Type} (e : Py.exn) : M A :=
  fun w => mkOutcome (inl e) w [].

Definition bind {A B : Type} (m : M A) (k : A -> M B) : M B :=
  fun w =>
    let o := m w in
    match returned o with
    | inl e => mkOutcome (inl e) (after o) (calls o)
    | inr x =>
        let o' := k x (after o) in
        mkOutcome (returned o') (after o') (calls o ++ calls o')%list
    end.

Definition lift {A : Type} (r : Py.result A) : M A :=
  fun w => mkOutcome r w [].

Definition call (c : Call) : M unit :=
  fun w => mkOutcome (inr tt) w [c].

Notation "x <- m ;; k" := (bind m (fun x => k))
  (at level 61, m at next level, right associativity).
Notation "m ;;; k" := (bind m (fun _ => k))
  (at level 61, right associativity).

(** [app.state.db] *)
Definition get_db : M DbHandle :=
  fun w =>
    match db (state w) with
    | Some h => mkOutcome (inr h) w []
    | None => mkOutcome (inl (Py.AttributeError "db")) w []
    end.

(** [app.state.db = h] *)
Definition set_db (h : DbHandle) : M unit :=
  fun w => mkOutcome (inr tt) (mkWorld (mkState (Some h)) (fs w)) [].

(** [open(p, 'rb').read()] *)
Definition open_read (p : Path) : M string :=
  call (CallOpen p) ;;;
  fun w =>
    match fs w p with
    | Some (File content) => mkOutcome (inr content) w []
    | Some Directory => mkOutcome (inl Py.IsADirectoryError) w []
    | None => mkOutcome (inl Py.FileNotFoundError) w []
    end.

(** [os.path.isdir(p)] *)
Definition isdir (p : Path) : M bool :=
  call (CallStat p) ;;;
  fun w =>
    match fs w p with
    | Some Directory => mkOutcome (inr true) w []
    | _ => mkOutcome (inr false) w []
    end.

(** [db.sql(query).pl()] *)
Definition sql (c : Connection) (query : string) : M pl.DataFrame :=
  call (CallSql query) ;;; lift (sql_pl c query).

(** [run_in_threadpool(f)] awaits [f()] on a worker thread: the caller gets
    what [f] returns or raises. *)
Definition run_in_threadpool {A : Type} (f : M A) : M A := f.

(** ** Requests and responses *)

(** A request, as a handler sees it.  [url_path] holds the segments of the
    path ([/api/hello] is [["api"; "hello"]], [/] is [[]]) and [json] is what
    [await request.json()] gives: the decoded body, or the decoder's
    exception. *)
Record Request : Type := mkRequest {
  method : string;
  url_path : Path;
  query_string : string;
  headers : list (string * string);
  body : string;
  json : Py.result Py.value
}.

(** What a response carries: the value a [JSONResponse] was built from, or
    bytes. *)
Inductive Content : Type :=
| Json (v : Py.value)
| Bytes (b : string).

Record Response : Type := mkResponse {
  status_code : Z;
  media_type : string;
  content : Content
}.

Definition Endpoint : Type := Request -> M Response.

(** [JSONResponse(v)]: status 200; the body is rendered when the response
    is built, [json.dumps(v, allow_nan=False, ...).encode("utf-8")]: the
    encoder refuses NaN and the infinities, and the encoding refuses a lone
    surrogate. *)
Definition JSONResponse (v : Py.value) : M Response :=
  if Py.finite_floats v
  then
    if Py.encodable_strings v
    then ret (mkResponse 200 "application/json" (Json v))
    else raise Py.UnicodeEncodeError
  else raise (Py.ValueError "Out of range float values are not JSON compliant").

(** [Response(content=..., media_type=...)] *)
Definition Response_ (b : string) (mt : string) : Response :=
  mkResponse 200 mt (Bytes b).

(** [PlainTextResponse(text, status_code=...)] *)
Definition PlainTextResponse (text : string) (status : Z) : Response :=
  mkResponse status "text/plain" (Bytes text).

(** What lies outside the repository and outside this development: CPython's
    [repr], the JSON encoder, the Jinja engine, the table of MIME types,
    where the two modules are installed ([__file__]), and what a file
    response makes of a range or a validator that the request carries (it
    goes by the file's size and times: 206, 304, 400, 416 or the file). *)
Record Env : Type := mkEnv {
  repr : Py.value -> string;
  dumps : Py.value -> string;
  jinja : string -> Request -> State -> Py.result string;
  guess_type : string -> string;
  routes_file : Path;
  init_file : Path;
  conditional_response : Request -> string -> string -> Response
}.

(** The bytes a response sends. *)
Definition body_bytes (env : Env) (r : Response) : string :=
  match content r with
  | Json v => dumps env v
  | Bytes b => b
  end.

(** ** Starlette: routes, mounts and the router *)

Definition mem (s : string) (l : list string) : bool :=
  existsb (String.eqb s) l.

Record Route : Type := mkRoute {
  route_path : Path;
  endpoint : Endpoint;
  methods : list string
}.

Inductive BaseRoute : Type :=
| ARoute (r : Route)
| Mount (prefix : Path) (app : Endpoint).

(** [Route(path, endpoint, methods=...)]: a function endpoint without
    methods answers GET, and HEAD is added wherever GET is allowed. *)
Definition Route_ (path : Path) (f : Endpoint) (ms : option (list string))
  : BaseRoute :=
  let allowed := match ms with Some l => l | None => ["GET"] end in
  ARoute (mkRoute path f
            (if mem "GET" allowed then (allowed ++ ["HEAD"])%list else allowed)).

Inductive Match : Type := NONE | PARTIAL | FULL.

Fixpoint path_eqb (p q : Path) : bool :=
  match p, q with
  | [], [] => true
  | x :: p', y :: q' => String.eqb x y && path_eqb p' q'
  | _, _ => false
  end.

Fixpoint strip_prefix (prefix p : Path) : option Path :=
  match prefix, p with
  | [], _ => Some p
  | x :: prefix', y :: p' =>
      if String.eqb x y then strip_prefix prefix' p' else None
  | _ :: _, [] => None
  end.

Definition with_path (req : Request) (p : Path) : Request :=
  mkRequest (method req) p (query_string req) (headers req) (body req) (json req).

(** [route.matches(scope)]: a route whose path matches but whose methods do
    not is a partial match; a mount hands the rest of the path down.
    This is the library on the paths made of plain segments, the bare
    prefix of a mount apart.  On the others the library goes its own way,
    which is not described here: the bare prefix of a mount and a path with
    a trailing slash are redirected, and a path that ends in a line feed
    can match the route of the path without it. *)
Definition matches (r : BaseRoute) (req : Request) : Match * Request :=
  match r with
  | ARoute rt =>
      if path_eqb (route_path rt) (url_path req)
      then (if mem (method req) (methods rt) then FULL else PARTIAL, req)
      else (NONE, req)
  | Mount prefix _ =>
      match strip_prefix prefix (url_path req) with
      | Some rest => (FULL, with_path req rest)
      | None => (NONE, req)
      end
  end.

(** [route.handle(scope, ...)] *)
Definition handle (r : BaseRoute) (req : Request) : M Response :=
  match r with
  | ARoute rt =>
      if mem (method req) (methods rt)
      then endpoint rt req
      else raise (Py.HTTPException 405)
  | Mount _ app => app req
  end.

(** The router: the first full match handles the request; failing that the
    first partial match; failing that, not found. *)
Fixpoint dispatch (rs : list BaseRoute) (partial : option BaseRoute)
  (req : Request) : M Response :=
  match rs with
  | [] =>
      match partial with
      | Some r => handle r req
      | None => raise (Py.HTTPException 404)
      end
  | r :: rs' =>
      match matches r req with
      | (FULL, child) => handle r child
      | (PARTIAL, _) =>
          dispatch rs' (match partial with Some r0 => Some r0 | None => Some r end) req
      | (NONE, _) => dispatch rs' partial req
      end
  end.

Definition Router (rs : list BaseRoute) : Endpoint := dispatch rs None.

(** ** Starlette: templates and static files *)

Record Jinja2Templates : Type := mkTemplates {
  directory : Path
}.

(** [templates.TemplateResponse(name, {'request': request})]: the template
    is loaded from the directory and rendered at once. *)
Definition TemplateResponse (env : Env) (t : Jinja2Templates) (name : string)
  (request : Request) : M Response :=
  call (CallRender name) ;;;
  source <- (fun w =>
               match fs w (directory t / name)%path with
               | Some (File text) => mkOutcome (inr text) w []
               | _ => mkOutcome (inl (Py.TemplateNotFound name)) w []
               end) ;;
  st <- (fun w => mkOutcome (inr (state w)) w []) ;;
  html <- lift (jinja env source request st) ;;
  ret (mkResponse 200 "text/html" (Bytes html)).

Record StaticFiles : Type := mkStaticFiles {
  static_directory : Path
}.

(** [StaticFiles(directory=...)]: the directory must exist when the
    application is assembled. *)
Definition StaticFiles_ (d : Path) : M StaticFiles :=
  found <- isdir d ;;
  if found : bool
  then ret (mkStaticFiles d)
  else raise (Py.RuntimeError "Directory does not exist").

Definition last_segment (p : Path) : string := last p "".

(** A segment that names a file: not empty, not [.] and not [..], and
    holding no slash, no control character and no lone surrogate. *)
Definition plain_segment (s : string) : bool :=
  negb (String.eqb s "") && negb (String.eqb s ".") && negb (String.eqb s "..")
  && forallb (fun a => (32 <=? N_of_ascii a)%N
                       && negb (N_of_ascii a =? 47)%N
                       && negb (N_of_ascii a =? 127)%N)
       (list_ascii_of_string s)
  && Py.encodable s.

(** [os.path.normpath] on the segments of a relative path: empty segments
    and [.] are dropped, and [..] takes back the segment before it, or
    stays when there is none to take back. *)
Fixpoint normpath_from (seen : list string) (p : Path) : Path :=
  match p with
  | [] => rev seen
  | seg :: p' =>
      if String.eqb seg "" || String.eqb seg "."
      then normpath_from seen p'
      else if String.eqb seg ".."
      then
        match seen with
        | top :: seen' =>
            if String.eqb top ".."
            then normpath_from (seg :: seen) p'
            else normpath_from seen' p'
        | [] => normpath_from [seg] p'
        end
      else normpath_from (seg :: seen) p'
  end.

Definition normpath (p : Path) : Path := normpath_from [] p.

(** A normalised path that leaves the directory it is relative to. *)
Definition outside (p : Path) : bool :=
  match p with
  | seg :: _ => String.eqb seg ".."
  | [] => false
  end.

(** A header of the request, by its name in lower case, as the server hands
    the names over. *)
Definition has_header (name : string) (req : Request) : bool :=
  existsb (fun kv => String.eqb (fst kv) name) (headers req).

(** The request asks for a part of the file, or for the file unless the
    client's copy is still good. *)
Definition conditional (req : Request) : bool :=
  has_header "range" req || has_header "if-none-match" req
  || has_header "if-modified-since" req.

(** [FileResponse]: the file with status 200 and the type its name gives;
    HEAD is sent the headers alone. *)
Definition FileResponse (env : Env) (req : Request) (name bytes : string)
  : Response :=
  if conditional req
  then conditional_response env req name bytes
  else mkResponse 200 (guess_type env name)
         (Bytes (if String.eqb (method req) "HEAD" then "" else bytes)).

(** A request to the static files application.  The directory is looked at
    first ([check_config]; the library does so on the first request it gets
    and remembers the answer, here every request does), then the method;
    the path is normalised and must stay inside the directory; a regular
    file is sent, and anything else is not found. *)
Definition StaticFiles_call (env : Env) (s : StaticFiles) : Endpoint :=
  fun req =>
    found <- isdir (static_directory s) ;;
    if found : bool
    then
      if mem (method req) ["GET"; "HEAD"]
      then
        let rel := normpath (url_path req) in
        if outside rel
        then raise (Py.HTTPException 404)
        else
          let p := (static_directory s ++ rel)%list in
          call (CallStat p) ;;;
          fun w =>
            match fs w p with
            | Some (File bytes) =>
                mkOutcome (inr (FileResponse env req (last_segment p) bytes)) w []
            | _ => mkOutcome (inl (Py.HTTPException 404)) w []
            end
      else raise (Py.HTTPException 405)
    else raise (Py.RuntimeError "StaticFiles directory does not exist").

(** ** Starlette: the application *)

Record Lifespan : Type := mkLifespan {
  startup : M unit;
  shutdown : M unit
}.

Record Starlette : Type := mkStarlette {
  app_lifespan : Lifespan;
  app_routes : list BaseRoute
}.

Definition phrase (status : Z) : string :=
  if status =? 404 then "Not Found"
  else if status =? 405 then "Method Not Allowed"
  else "".

(** The exception middlewares: an [HTTPException] becomes the response of
    its status, any other exception the response 500. *)
Definition error_response (e : Py.exn) : Response :=
  match e with
  | Py.HTTPException status => PlainTextResponse (phrase status) status
  | _ => PlainTextResponse "Internal Server Error" 500
  end.

(** One request served by the application: the response sent and the world
    left behind. *)
Definition serve (app : Starlette) (req : Request) (w : World) : Response * World :=
  let o := Router (app_routes app) req w in
  (match returned o with
   | inr r => r
   | inl e => error_response e
   end, after o).

(** ** routes.py *)

Module routes.

Import Py.

Section Handlers.

Variable env : Env.

(** [templates = Jinja2Templates(directory=Path(__file__).parent / 'templates')] *)
Definition templates : Jinja2Templates :=
  mkTemplates (parent (routes_file env) / "templates")%path.

(** [hello] *)
Definition hello (request : Request) : M Response :=
  JSONResponse (Dict [("message", Str "Hello from Starlette API!")]).

(** [hello_post] *)
Definition hello_post (request : Request) : M Response :=
  data <- lift (json request) ;;
  name <- lift (get data "name" (Str "World")) ;;
  JSONResponse
    (Dict [("message", Str ("Hello, " ++ str (repr env) name ++ "!"))]).

(** [hello_htmx] *)
Definition hello_htmx (request : Request) : M Response :=
  TemplateResponse env templates "hello_htmx.html" request.

(** [main_content] *)
Definition main_content (request : Request) : M Response :=
  TemplateResponse env templates "main_content.html" request.

(** [duckdb_example], and its inner [query] *)
Definition query (request : Request) : M value :=
  db <- get_db ;;
  df <- match db with
        | NoneHandle =>
            lift (pl.DataFrame_
                    [("name", pl.Utf8 ["Alice"; "Bob"; "Charlie"]);
                     ("age", pl.Int64 [25; 30; 35]);
                     ("city", pl.Utf8 ["NYC"; "LA"; "Chicago"])])
        | Conn c => sql c "SELECT * FROM users"
        end ;;
  ret (pl.to_dicts df).

Definition duckdb_example (request : Request) : M Response :=
  rows <- run_in_threadpool (query request) ;;
  JSONResponse rows.

(** [polars_example], and its inner [process] *)
Definition process : M value :=
  df <- lift (pl.DataFrame_
                [("product", pl.Utf8 ["A"; "B"; "C"; "D"; "E"]);
                 ("price", pl.Float64 [10.5; 25.0; 15.75; 30.0; 20.25]%float);
                 ("quantity", pl.Int64 [100; 50; 75; 25; 60])]) ;;
  summary <- lift (pl.select df
                     [pl.col "product";
                      pl.alias (pl.mul (pl.col "price") (pl.col "quantity"))
                        "total"]) ;;
  ret (pl.to_dicts summary).

Definition polars_example (request : Request) : M Response :=
  rows <- run_in_threadpool process ;;
  JSONResponse rows.

(** [api_routes] *)
Definition api_routes : list BaseRoute :=
  [ Route_ ["hello"] hello (Some ["GET"]);
    Route_ ["hello"] hello_post (Some ["POST"]);
    Route_ ["hello-htmx"] hello_htmx (Some ["GET"]);
    Route_ ["main-content"] main_content (Some ["GET"]);
    Route_ ["duckdb-example"] duckdb_example (Some ["GET"]);
    Route_ ["polars-example"] polars_example (Some ["GET"]) ].

End Handlers.

End routes.

(** ** __init__.py *)

Module web.

Section App.

Variable env : Env.

(** [lifespan]: before the [yield] the handle is set to [None]; nothing
    follows the [yield]. *)
Definition lifespan : Lifespan :=
  mkLifespan (set_db NoneHandle) (ret tt).

Definition static_dir : Path :=
  (parent (parent (parent (parent (init_file env)))) / "frontend" / "dist")%path.

(** The two routes that send one file each. *)
Definition vite_svg (r : Request) : M Response :=
  bytes <- open_read (static_dir / "vite.svg")%path ;;
  ret (Response_ bytes "image/svg+xml").

Definition index (r : Request) : M Response :=
  bytes <- open_read (static_dir / "index.html")%path ;;
  ret (Response_ bytes "text/html").

(** [create_app] *)
Definition create_app : M Starlette :=
  let templates := mkTemplates (parent (init_file env) / "templates")%path in
  assets <- StaticFiles_ (static_dir / "assets")%path ;;
  let routes :=
    [ Mount ["api"] (Router (routes.api_routes env));
      Mount ["assets"] (StaticFiles_call env assets);
      Route_ ["vite.svg"] vite_svg None;
      Route_ [] index None ] in
  let app := mkStarlette lifespan routes in
  ret app.

End App.

End web.

(** ** The life of the served application *)

(** The worlds the application can be in while it serves: the one its
    lifespan leaves when the startup succeeds, and the one any request
    leaves after that. *)
Inductive reachable (app : Starlette) : World -> Prop :=
| reach_startup : forall w,
    returned (startup (app_lifespan app) w) = inr tt ->
    reachable app (after (startup (app_lifespan app) w))
| reach_request : forall w req,
    reachable app w ->
    reachable app (snd (serve app req w)).

(** The application [create_app] returns, when it returns one. *)
Definition the_app (env : Env) : Starlette :=
  mkStarlette web.lifespan
    [ Mount ["api"] (Router (routes.api_routes env));
      Mount ["assets"]
        (StaticFiles_call env (mkStaticFiles (web.static_dir env / "assets")%path));
      Route_ ["vite.svg"] (web.vite_svg env) None;
      Route_ [] (web.index env) None ].

(** A computation that leaves the world as it found it. *)
Definition frame {A : Type} (m : M A) : Prop :=
  forall w, after (m w) = w.

Definition preserves (f : Endpoint) : Prop :=
  forall req, frame (f req).

Definition route_preserves (r : BaseRoute) : Prop :=
  match r with
  | ARoute rt => preserves (endpoint rt)
  | Mount _ app => preserves app
  end.

(** The records the two tabular handlers are expected to send. *)
Definition users_records : Py.value :=
  Py.List
    [ Py.Dict [("name", Py.Str "Alice"); ("age", Py.Int 25); ("city", Py.Str "NYC")];
      Py.Dict [("name", Py.Str "Bob"); ("age", Py.Int 30); ("city", Py.Str "LA")];
      Py.Dict [("name", Py.Str "Charlie"); ("age", Py.Int 35); ("city", Py.Str "Chicago")] ].

Definition total_record (product : string) (total : float) : Py.value :=
  Py.Dict [("product", Py.Str product); ("total", Py.Float total)].

Definition keys (v : Py.value) : list string :=
  match v with
  | Py.Dict d => map fst d
  | _ => []
  end.

(** A small installation to run the application on: the package under
    [/srv/backend], a built front end without [vite.svg] and without
    [index.html], and stand-ins for the interpreter's own functions. *)
Module Example.

Definition env : Env :=
  mkEnv (fun _ => "?") (fun _ => "?") (fun source _ _ => inr source)
    (fun _ => "application/octet-stream")
    ["srv"; "backend"; "old"; "boilerplate_app"; "web"; "routes.py"]
    ["srv"; "backend"; "old"; "boilerplate_app"; "web"; "__init__.py"]
    (fun _ _ _ => mkResponse 304 "" (Bytes "")).

Definition files : FS :=
  fun p =>
    if path_eqb p ["srv"; "backend"; "frontend"; "dist"; "assets"]
    then Some Directory
    else if path_eqb p ["srv"; "backend"; "frontend"; "dist"; "assets"; "app.js"]
    then Some (File "console.log(1)")
    else None.

(** Before the startup: no attribute [db] yet. *)
Definition cold : World := mkWorld (mkState None) files.

(** After the startup. *)
Definition warm : World := mkWorld (mkState (Some NoneHandle)) files.

Definition request (m : string) (p : Path) (j : Py.result Py.value) : Request :=
  mkRequest m p "" [] "" j.

Definition no_body : Py.result Py.value := inl Py.JSONDecodeError.

(** The [str] that the JSON text ["\ud800"] decodes to: one lone
    surrogate. *)
Definition lone_surrogate : string :=
  String "237"%char (String "160"%char (String "128"%char EmptyString)).

(** The one that ["\udfff"] decodes to. *)
Definition low_surrogate : string :=
  String "237"%char (String "191"%char (String "191"%char EmptyString)).

End Example.

(** A second installation, with a complete build of the front end, the
    two templates, and a database that holds one relation. *)
Module Site.

Definition dist : Path := ["srv"; "backend"; "frontend"; "dist"].

Definition templates_dir : Path :=
  ["srv"; "backend"; "old"; "boilerplate_app"; "web"; "templates"].

Definition files : FS :=
  fun p =>
    if path_eqb p (dist / "assets")%path then Some Directory
    else if path_eqb p (dist / "assets" / "app.js")%path then Some (File "go()")
    else if path_eqb p (dist / "assets" / "img")%path then Some Directory
    else if path_eqb p (dist / "vite.svg")%path then Some (File "<svg/>")
    else if path_eqb p (dist / "index.html")%path then Some (File "<html/>")
    else if path_eqb p (templates_dir / "hello_htmx.html")%path
    then Some (File "<p>hello</p>")
    else None.

Definition users : Connection :=
  mkConnection
    (fun q =>
       if String.eqb q "SELECT * FROM users"
       then inr [("id", pl.Int64 [1; 2]); ("login", pl.Utf8 ["ann"; "bo"])]
       else inl (Py.DatabaseError "no such table")).

Definition world : World := mkWorld (mkState (Some NoneHandle)) files.

Definition connected : World := mkWorld (mkState (Some (Conn users))) files.

End Site.

(** * Properties *)

(** ** The monad *)

Create HintDb frame.

Lemma frame_ret {A : Type} (x : A) : frame (ret x).
Proof. intro w; reflexivity. Qed.

Lemma frame_raise {A : Type} (e : Py.exn) : frame (@raise A e).
Proof. intro w; reflexivity. Qed.

Lemma frame_lift {A : Type} (r : Py.result A) : frame (lift r).
Proof. intro w; reflexivity. Qed.

Lemma frame_call (c : Call) : frame (call c).
Proof. intro w; reflexivity. Qed.

Lemma frame_bind {A B : Type} (m : M A) (k : A -> M B) :
  frame m -> (forall x, frame (k x)) -> frame (bind m k).
Proof.
  intros Hm Hk w. unfold bind.
  destruct (returned (m w)) as [e | x]; cbn [after].
  - apply Hm.
  - rewrite Hm. apply Hk.
Qed.

Lemma frame_get_db : frame get_db.
Proof. intro w. unfold get_db. destruct (db (state w)); reflexivity. Qed.

Lemma frame_open_read (p : Path) : frame (open_read p).
Proof.
  unfold open_read. apply frame_bind; [apply frame_call | ].
  intros _ w. destruct (fs w p) as [[c | ] | ]; reflexivity.
Qed.

Lemma frame_isdir (p : Path) : frame (isdir p).
Proof.
  unfold isdir. apply frame_bind; [apply frame_call | ].
  intros _ w. destruct (fs w p) as [[c | ] | ]; reflexivity.
Qed.

Lemma frame_sql (c : Connection) (q : string) : frame (sql c q).
Proof.
  unfold sql. apply frame_bind; [apply frame_call | intros _; apply frame_lift].
Qed.

Lemma frame_run_in_threadpool {A : Type} (f : M A) :
  frame f -> frame (run_in_threadpool f).
Proof. intro H; exact H. Qed.

Lemma frame_JSONResponse (v : Py.value) : frame (JSONResponse v).
Proof.
  unfold JSONResponse.
  destruct (Py.finite_floats v); [ | apply frame_raise].
  destruct (Py.encodable_strings v); [apply frame_ret | apply frame_raise].
Qed.

#[global] Hint Resolve frame_ret frame_raise frame_lift frame_call frame_get_db
  frame_open_read frame_isdir frame_sql frame_JSONResponse : frame.

(** Splits a computation along its binds and closes the leaves. *)
Ltac frames :=
  repeat (lazymatch goal with
          | |- frame (bind _ _) => apply frame_bind; [ | intro ]
          end);
  auto with frame.

Lemma frame_TemplateResponse env t name request :
  frame (TemplateResponse env t name request).
Proof.
  unfold TemplateResponse. frames.
  - intro w. destruct (fs w _) as [[c | ] | ]; reflexivity.
  - intro w. reflexivity.
Qed.

Lemma frame_StaticFiles_call env s : preserves (StaticFiles_call env s).
Proof.
  intros req. unfold StaticFiles_call.
  apply frame_bind; [apply frame_isdir | ].
  intros [ | ]; [ | apply frame_raise].
  destruct (mem (method req) _); [ | apply frame_raise].
  destruct (outside _); [apply frame_raise | ].
  frames. intro w. destruct (fs w _) as [[c | ] | ]; reflexivity.
Qed.

#[global] Hint Resolve frame_TemplateResponse : frame.

(** ** The handlers leave the world alone *)

Lemma frame_hello : preserves routes.hello.
Proof. intro req. unfold routes.hello. frames. Qed.

Lemma frame_hello_post env : preserves (routes.hello_post env).
Proof. intro req. unfold routes.hello_post. frames. Qed.

Lemma frame_hello_htmx env : preserves (routes.hello_htmx env).
Proof. intro req. apply frame_TemplateResponse. Qed.

Lemma frame_main_content env : preserves (routes.main_content env).
Proof. intro req. apply frame_TemplateResponse. Qed.

Lemma frame_query request : frame (routes.query request).
Proof.
  unfold routes.query. frames.
  match goal with h : DbHandle |- _ => destruct h end; auto with frame.
Qed.

Lemma frame_duckdb_example : preserves routes.duckdb_example.
Proof.
  intro req. unfold routes.duckdb_example. frames.
  apply frame_run_in_threadpool, frame_query.
Qed.

Lemma frame_process : frame routes.process.
Proof. unfold routes.process. frames. Qed.

Lemma frame_polars_example : preserves routes.polars_example.
Proof.
  intro req. unfold routes.polars_example. frames.
  apply frame_run_in_threadpool, frame_process.
Qed.

Lemma frame_vite_svg env : preserves (web.vite_svg env).
Proof. intro req. unfold web.vite_svg. frames. Qed.

Lemma frame_index env : preserves (web.index env).
Proof. intro req. unfold web.index. frames. Qed.

(** ** The router hands the property of its routes on *)

Lemma frame_handle r req : route_preserves r -> frame (handle r req).
Proof.
  destruct r as [rt | prefix app]; cbn [route_preserves handle]; intro H.
  - destruct (mem (method req) (methods rt)); [apply H | apply frame_raise].
  - apply H.
Qed.

Lemma frame_dispatch rs :
  Forall route_preserves rs ->
  forall partial req,
    match partial with Some r => route_preserves r | None => True end ->
    frame (dispatch rs partial req).
Proof.
  induction 1 as [ | r rs Hr Hrs IH]; intros partial req Hp; cbn [dispatch].
  - destruct partial as [r0 | ]; [apply frame_handle, Hp | apply frame_raise].
  - destruct (matches r req) as [[ | | ] child].
    + apply IH, Hp.
    + apply IH. destruct partial; assumption.
    + apply frame_handle, Hr.
Qed.

Lemma frame_Router rs : Forall route_preserves rs -> preserves (Router rs).
Proof. intros H req. apply frame_dispatch; [exact H | exact I]. Qed.

Lemma api_routes_preserve env : Forall route_preserves (routes.api_routes env).
Proof.
  unfold routes.api_routes.
  repeat apply Forall_cons; try apply Forall_nil;
    cbn [route_preserves Route_ endpoint]; intro req.
  - apply frame_hello.
  - apply frame_hello_post.
  - apply frame_hello_htmx.
  - apply frame_main_content.
  - apply frame_duckdb_example.
  - apply frame_polars_example.
Qed.

(** ** The assembled application *)

Lemma create_app_inv env w0 app :
  returned (web.create_app env w0) = inr app -> app = the_app env.
Proof.
  unfold web.create_app, StaticFiles_, isdir, bind, call. cbn.
  destruct (fs w0 _) as [[c | ] | ]; cbn; intro H;
    first [discriminate H | injection H as <-; reflexivity].
Qed.

Lemma create_app_ok env w0 :
  fs w0 (web.static_dir env / "assets")%path = Some Directory ->
  returned (web.create_app env w0) = inr (the_app env).
Proof.
  intro H. unfold web.create_app, StaticFiles_, isdir, bind, call. cbn.
  rewrite H. reflexivity.
Qed.

Lemma the_app_preserves env : Forall route_preserves (app_routes (the_app env)).
Proof.
  unfold the_app; cbn [app_routes].
  repeat apply Forall_cons; try apply Forall_nil;
    cbn [route_preserves Route_ endpoint].
  - apply frame_Router, api_routes_preserve.
  - apply frame_StaticFiles_call.
  - apply frame_vite_svg.
  - apply frame_index.
Qed.

Lemma serve_frame env req w : snd (serve (the_app env) req w) = w.
Proof.
  unfold serve; cbn [snd]. apply frame_Router, the_app_preserves.
Qed.

(** The invariant of the served application: the handle is [None]. *)
Lemma reachable_db_none env w :
  reachable (the_app env) w -> db (state w) = Some NoneHandle.
Proof.
  induction 1 as [w _ | w req _ IH].
  - reflexivity.
  - rewrite serve_frame. exact IH.
Qed.

(** ** The handlers *)

(** C5. [GET /api/hello]: the handler always returns the JSON object
    [{"message": "Hello from Starlette API!"}] with status 200, whatever the
    request and the world, and that is the response the application sends
    for [GET /api/hello]. *)
Theorem hello_always_greets :
  (forall request w,
      routes.hello request w =
      mkOutcome
        (inr (mkResponse 200 "application/json"
                (Json (Py.Dict [("message", Py.Str "Hello from Starlette API!")]))))
        w [])
  /\
  (forall env w0 app,
      returned (web.create_app env w0) = inr app ->
      forall request w,
        method request = "GET" ->
        url_path request = ["api"; "hello"] ->
        serve app request w =
        (mkResponse 200 "application/json"
           (Json (Py.Dict [("message", Py.Str "Hello from Starlette API!")])),
         w)).
Proof.
  split.
  - intros request w. reflexivity.
  - intros env w0 app Happ request w Hm Hp.
    rewrite (create_app_inv _ _ _ Happ).
    destruct request as [m p qs hs b j]; cbn in Hm, Hp; subst m p.
    reflexivity.
Qed.

Lemma hello_always_greets_witness :
  serve (the_app Example.env) (Example.request "GET" ["api"; "hello"] Example.no_body)
    Example.warm =
  (mkResponse 200 "application/json"
     (Json (Py.Dict [("message", Py.Str "Hello from Starlette API!")])),
   Example.warm).
Proof.
  apply (proj2 hello_always_greets Example.env Example.cold (the_app Example.env)).
  - reflexivity.
  - reflexivity.
  - reflexivity.
Defined.

(** The products of the literal table lose nothing to rounding: each total
    stands for the rational product of its price and its quantity. *)
Lemma literal_totals_are_exact :
  Forall
    (fun row : float * Z * float =>
       let '(price, quantity, total) := row in
       exists p t,
         Py.exact price = Some p
         /\ Py.exact total = Some t
         /\ Qeq (Qmult p (inject_Z quantity)) t
         /\ PrimFloat.mul price (pl.f64_of_i64 quantity) = total)
    [ (10.5%float, 100, 1050.0%float); (25.0%float, 50, 1250.0%float);
      (15.75%float, 75, 1181.25%float); (30.0%float, 25, 750.0%float);
      (20.25%float, 60, 1215.0%float) ].
Proof.
  repeat apply Forall_cons; try apply Forall_nil;
    (eexists; eexists; split; [reflexivity | split; [reflexivity | split; reflexivity]]).
Qed.

(** C1. [GET /api/polars-example]: for every request the handler returns
    status 200 and a JSON array of exactly 5 records, each with exactly the
    keys [product] and [total]; the products are A to E in that order and
    the totals are the element-wise products price * quantity of the literal
    table, that is 1050.0, 1250.0, 1181.25, 750.0 and 1215.0. *)
Theorem polars_example_totals :
  forall request w,
    let products := ["A"; "B"; "C"; "D"; "E"] in
    let prices := [10.5; 25.0; 15.75; 30.0; 20.25]%float in
    let quantities := [100; 50; 75; 25; 60] in
    let totals := [1050.0; 1250.0; 1181.25; 750.0; 1215.0]%float in
    exists records,
      routes.polars_example request w =
      mkOutcome (inr (mkResponse 200 "application/json" (Json (Py.List records)))) w []
      /\ List.length records = 5%nat
      /\ Forall (fun r => keys r = ["product"; "total"]) records
      /\ Some records = pl.zip_with total_record products totals
      /\ Some totals =
         pl.zip_with (fun p q => PrimFloat.mul p (pl.f64_of_i64 q)) prices quantities.
Proof.
  intros request w products prices quantities totals.
  eexists. split; [reflexivity | ].
  split; [reflexivity | ].
  split; [repeat constructor | ].
  split; reflexivity.
Qed.

(** C2. [GET /api/duckdb-example] while the handle is [None]: the handler
    returns status 200 and a JSON array of exactly 3 records, each with
    exactly the keys [name], [age], [city], holding (Alice, 25, NYC),
    (Bob, 30, LA), (Charlie, 35, Chicago) in that order. *)
Theorem duckdb_example_without_db :
  forall request w,
    db (state w) = Some NoneHandle ->
    exists records,
      routes.duckdb_example request w =
      mkOutcome (inr (mkResponse 200 "application/json" (Json (Py.List records)))) w []
      /\ List.length records = 3%nat
      /\ Forall (fun r => keys r = ["name"; "age"; "city"]) records
      /\ records =
         [ Py.Dict [("name", Py.Str "Alice"); ("age", Py.Int 25); ("city", Py.Str "NYC")];
           Py.Dict [("name", Py.Str "Bob"); ("age", Py.Int 30); ("city", Py.Str "LA")];
           Py.Dict [("name", Py.Str "Charlie"); ("age", Py.Int 35);
                    ("city", Py.Str "Chicago")] ].
Proof.
  intros request [[d] f] H. cbn in H. subst d.
  eexists. split; [reflexivity | ].
  split; [reflexivity | ].
  split; [repeat constructor | reflexivity].
Qed.

Lemma duckdb_example_without_db_witness :
  exists records,
    routes.duckdb_example
      (Example.request "GET" ["duckdb-example"] Example.no_body) Example.warm =
    mkOutcome (inr (mkResponse 200 "application/json" (Json (Py.List records))))
      Example.warm []
    /\ List.length records = 3%nat
    /\ Forall (fun r => keys r = ["name"; "age"; "city"]) records
    /\ records =
       [ Py.Dict [("name", Py.Str "Alice"); ("age", Py.Int 25); ("city", Py.Str "NYC")];
         Py.Dict [("name", Py.Str "Bob"); ("age", Py.Int 30); ("city", Py.Str "LA")];
         Py.Dict [("name", Py.Str "Charlie"); ("age", Py.Int 35);
                  ("city", Py.Str "Chicago")] ].
Proof.
  apply (duckdb_example_without_db
           (Example.request "GET" ["duckdb-example"] Example.no_body) Example.warm).
  reflexivity.
Defined.

(** ** [hello_post] *)

(** A key that is not among the keys of a dict is not found. *)
Lemma lookup_absent key d :
  ~ In key (map fst d) -> Py.lookup key d = None.
Proof.
  induction d as [ | [k v] d IH]; intro H; [reflexivity | ].
  cbn [Py.lookup]. destruct (String.eqb k key) eqn:E.
  - apply String.eqb_eq in E. exfalso. apply H. left. exact E.
  - apply IH. intro Hin. apply H. right. exact Hin.
Qed.

(** In a dict, whose keys are distinct, a key is found with its value. *)
Lemma lookup_present key v d :
  NoDup (map fst d) -> In (key, v) d -> Py.lookup key d = Some v.
Proof.
  induction d as [ | [k v'] d IH]; intros Hnd Hin; [destruct Hin | ].
  cbn [map fst] in Hnd. inversion Hnd as [ | k' l Hk Hd]; subst.
  cbn [Py.lookup]. destruct Hin as [Heq | Hin].
  - injection Heq as -> ->. rewrite String.eqb_refl. reflexivity.
  - destruct (String.eqb k key) eqn:E.
    + apply String.eqb_eq in E. subst k. exfalso. apply Hk.
      apply (in_map fst) in Hin. exact Hin.
    + apply IH; assumption.
Qed.

Lemma encodable_cons a b s :
  Py.encodable (String a (String b s)) =
  if Py.surrogate a b then false else Py.encodable (String b s).
Proof. reflexivity. Qed.

(** The mark that closes the greeting changes nothing to what can be
    encoded, nor do the words that open it. *)
Lemma encodable_bang s : Py.encodable (s ++ "!") = Py.encodable s.
Proof.
  induction s as [ | a s IH]; [reflexivity | ].
  destruct s as [ | b s].
  - cbn [append]. rewrite encodable_cons.
    destruct a as [[ | ] [ | ] [ | ] [ | ] [ | ] [ | ] [ | ] [ | ]]; reflexivity.
  - change (String a (String b s) ++ "!") with (String a (String b (s ++ "!"))).
    change (String b s ++ "!") with (String b (s ++ "!")) in IH.
    rewrite !encodable_cons. destruct (Py.surrogate a b); [reflexivity | ].
    exact IH.
Qed.

Lemma encodable_greeting s :
  Py.encodable ("Hello, " ++ s ++ "!") = Py.encodable s.
Proof.
  rewrite <- (encodable_bang s).
  destruct (s ++ "!") as [ | b t]; reflexivity.
Qed.

(** The response of the greeting: built when the greeting can be encoded. *)
Lemma JSONResponse_greeting s w :
  JSONResponse (Py.Dict [("message", Py.Str ("Hello, " ++ s ++ "!"))]) w =
  if Py.encodable s
  then mkOutcome
         (inr (mkResponse 200 "application/json"
                 (Json (Py.Dict [("message", Py.Str ("Hello, " ++ s ++ "!"))]))))
         w []
  else mkOutcome (inl Py.UnicodeEncodeError) w [].
Proof.
  unfold JSONResponse.
  change (Py.finite_floats (Py.Dict [("message", Py.Str ("Hello, " ++ s ++ "!"))]))
    with true.
  change (Py.encodable_strings
            (Py.Dict [("message", Py.Str ("Hello, " ++ s ++ "!"))]))
    with (Py.encodable ("Hello, " ++ s ++ "!") && true).
  rewrite andb_true_r, encodable_greeting.
  destruct (Py.encodable s); reflexivity.
Qed.

(** What [hello_post] does on a JSON object body: the value under [name],
    or ["World"], is rendered into the greeting, and the response is built
    when the greeting can be encoded. *)
Lemma hello_post_on_object env request w d :
  json request = inr (Py.Dict d) ->
  routes.hello_post env request w =
  JSONResponse
    (Py.Dict
       [("message",
         Py.Str ("Hello, "
                 ++ Py.str (repr env)
                      (match Py.lookup "name" d with
                       | Some v => v
                       | None => Py.Str "World"
                       end)
                 ++ "!"))]) w.
Proof.
  intro H. unfold routes.hello_post, bind, lift. cbn [returned after calls].
  rewrite H. cbn [Py.get returned after calls].
  destruct (Py.lookup "name" d); cbn [returned after calls app];
    destruct (JSONResponse _ w); reflexivity.
Qed.

(** C4, as stated, fails: the body [{"name": "\ud800"}] is a JSON object
    with the key [name], and the handler raises instead of returning a
    greeting; the request is answered with status 500. *)
Lemma hello_post_lone_surrogate_name :
  returned
    (routes.hello_post Example.env
       (Example.request "POST" ["hello"]
          (inr (Py.Dict [("name", Py.Str Example.lone_surrogate)])))
       Example.warm) = inl Py.UnicodeEncodeError
  /\ fst (serve (the_app Example.env)
            (Example.request "POST" ["api"; "hello"]
               (inr (Py.Dict [("name", Py.Str Example.lone_surrogate)])))
            Example.warm) = PlainTextResponse "Internal Server Error" 500.
Proof. split; reflexivity. Qed.

(** C4, amended. [POST /api/hello] on a JSON object body: when the key
    [name] is absent the greeting is that of the default, ["World"]; so the
    body [{}] gives [{"message": "Hello, World!"}], and the bodies
    [{"name": "Ada"}] and [{"age": 36, "name": "Ada"}] give
    [{"message": "Hello, Ada!"}].  In general the value of [name] is
    interpolated when the greeting it gives can be encoded as UTF-8, and
    otherwise the handler raises [UnicodeEncodeError]. *)
Theorem hello_post_greets_by_name :
  forall env request w,
    (forall d,
        json request = inr (Py.Dict d) ->
        ~ In "name" (map fst d) ->
        routes.hello_post env request w =
        mkOutcome
          (inr (mkResponse 200 "application/json"
                  (Json (Py.Dict [("message", Py.Str "Hello, World!")]))))
          w [])
    /\
    (json request = inr (Py.Dict []) ->
     returned (routes.hello_post env request w) =
     inr (mkResponse 200 "application/json"
            (Json (Py.Dict [("message", Py.Str "Hello, World!")]))))
    /\
    (json request = inr (Py.Dict [("name", Py.Str "Ada")]) ->
     returned (routes.hello_post env request w) =
     inr (mkResponse 200 "application/json"
            (Json (Py.Dict [("message", Py.Str "Hello, Ada!")]))))
    /\
    (json request = inr (Py.Dict [("age", Py.Int 36); ("name", Py.Str "Ada")]) ->
     returned (routes.hello_post env request w) =
     inr (mkResponse 200 "application/json"
            (Json (Py.Dict [("message", Py.Str "Hello, Ada!")]))))
    /\
    (forall d name,
        json request = inr (Py.Dict d) ->
        NoDup (map fst d) ->
        In ("name", name) d ->
        returned (routes.hello_post env request w) =
        if Py.encodable (Py.str (repr env) name)
        then inr (mkResponse 200 "application/json"
                    (Json (Py.Dict
                             [("message",
                               Py.Str ("Hello, " ++ Py.str (repr env) name ++ "!"))])))
        else inl Py.UnicodeEncodeError).
Proof.
  intros env request w. split; [ | split; [ | split; [ | split]]].
  - intros d Hj Hn.
    rewrite (hello_post_on_object _ _ _ _ Hj), (lookup_absent _ _ Hn).
    reflexivity.
  - intro Hj. rewrite (hello_post_on_object _ _ _ _ Hj). reflexivity.
  - intro Hj. rewrite (hello_post_on_object _ _ _ _ Hj). reflexivity.
  - intro Hj. rewrite (hello_post_on_object _ _ _ _ Hj). reflexivity.
  - intros d name Hj Hnd Hin.
    rewrite (hello_post_on_object _ _ _ _ Hj), (lookup_present _ _ _ Hnd Hin).
    rewrite JSONResponse_greeting.
    destruct (Py.encodable _); reflexivity.
Qed.

Lemma hello_post_greets_by_name_witness :
  returned
    (routes.hello_post Example.env
       (Example.request "POST" ["hello"]
          (inr (Py.Dict [("age", Py.Int 36); ("name", Py.Str "Ada")])))
       Example.warm) =
  inr (mkResponse 200 "application/json"
         (Json (Py.Dict [("message", Py.Str "Hello, Ada!")])))
  /\
  routes.hello_post Example.env
    (Example.request "POST" ["hello"] (inr (Py.Dict [("age", Py.Int 36)])))
    Example.warm =
  mkOutcome
    (inr (mkResponse 200 "application/json"
            (Json (Py.Dict [("message", Py.Str "Hello, World!")]))))
    Example.warm [].
Proof.
  split.
  - apply (proj2 (proj2 (proj2 (proj2 (hello_post_greets_by_name Example.env
             (Example.request "POST" ["hello"]
                (inr (Py.Dict [("age", Py.Int 36); ("name", Py.Str "Ada")])))
             Example.warm))))
             [("age", Py.Int 36); ("name", Py.Str "Ada")] (Py.Str "Ada")).
    + reflexivity.
    + cbn. repeat constructor; cbn; intuition discriminate.
    + cbn. right. left. reflexivity.
  - apply (proj1 (hello_post_greets_by_name Example.env
                    (Example.request "POST" ["hello"] (inr (Py.Dict [("age", Py.Int 36)])))
                    Example.warm) [("age", Py.Int 36)]).
    + reflexivity.
    + cbn. intros [H | []]. discriminate H.
Defined.

(** C9, as stated, fails: in the body [{"name": "Ada\udfff"}] the key is
    present with a string as its value, and the value is not interpolated:
    the handler raises and the request is answered with status 500. *)
Lemma hello_post_present_name_not_greeted :
  In ("name", Py.Str ("Ada" ++ Example.low_surrogate))
    [("name", Py.Str ("Ada" ++ Example.low_surrogate))]
  /\ returned
       (routes.hello_post Example.env
          (Example.request "POST" ["hello"]
             (inr (Py.Dict [("name", Py.Str ("Ada" ++ Example.low_surrogate))])))
          Example.warm) = inl Py.UnicodeEncodeError
  /\ fst (serve (the_app Example.env)
            (Example.request "POST" ["api"; "hello"]
               (inr (Py.Dict [("name", Py.Str ("Ada" ++ Example.low_surrogate))])))
            Example.warm) = PlainTextResponse "Internal Server Error" 500.
Proof. split; [left; reflexivity | split; reflexivity]. Qed.

(** C9, amended. [POST /api/hello], key present: the default applies only
    when the key [name] is absent; a value that is present is the one
    interpolated, whatever it is, when the greeting it gives can be encoded
    as UTF-8, and otherwise the handler raises [UnicodeEncodeError].  So
    the body [{"name": null}] gives [{"message": "Hello, None!"}] and not
    the greeting of the default, [{"name": 42}] gives
    [{"message": "Hello, 42!"}], [{"name": -7}] gives
    [{"message": "Hello, -7!"}] and [{"name": true}] gives
    [{"message": "Hello, True!"}]. *)
Theorem hello_post_present_name_wins :
  forall env request w,
    (forall d v,
        json request = inr (Py.Dict d) ->
        NoDup (map fst d) ->
        In ("name", v) d ->
        returned (routes.hello_post env request w) =
        if Py.encodable (Py.str (repr env) v)
        then inr (mkResponse 200 "application/json"
                    (Json (Py.Dict
                             [("message",
                               Py.Str ("Hello, " ++ Py.str (repr env) v ++ "!"))])))
        else inl Py.UnicodeEncodeError)
    /\
    (forall d,
        json request = inr (Py.Dict d) ->
        NoDup (map fst d) ->
        In ("name", Py.None_) d ->
        returned (routes.hello_post env request w) =
        inr (mkResponse 200 "application/json"
               (Json (Py.Dict [("message", Py.Str "Hello, None!")])))
        /\ returned (routes.hello_post env request w) <>
           inr (mkResponse 200 "application/json"
                  (Json (Py.Dict [("message", Py.Str "Hello, World!")]))))
    /\
    (json request = inr (Py.Dict [("name", Py.Int 42)]) ->
     returned (routes.hello_post env request w) =
     inr (mkResponse 200 "application/json"
            (Json (Py.Dict [("message", Py.Str "Hello, 42!")]))))
    /\
    (json request = inr (Py.Dict [("name", Py.Int (-7))]) ->
     returned (routes.hello_post env request w) =
     inr (mkResponse 200 "application/json"
            (Json (Py.Dict [("message", Py.Str "Hello, -7!")]))))
    /\
    (json request = inr (Py.Dict [("name", Py.Int 0)]) ->
     returned (routes.hello_post env request w) =
     inr (mkResponse 200 "application/json"
            (Json (Py.Dict [("message", Py.Str "Hello, 0!")]))))
    /\
    (json request = inr (Py.Dict [("name", Py.Bool true)]) ->
     returned (routes.hello_post env request w) =
     inr (mkResponse 200 "application/json"
            (Json (Py.Dict [("message", Py.Str "Hello, True!")])))).
Proof.
  intros env request w. split; [ | split; [ | split; [ | split; [ | split]]]].
  - intros d v Hj Hnd Hin.
    rewrite (hello_post_on_object _ _ _ _ Hj), (lookup_present _ _ _ Hnd Hin).
    rewrite JSONResponse_greeting.
    destruct (Py.encodable _); reflexivity.
  - intros d Hj Hnd Hin.
    rewrite (hello_post_on_object _ _ _ _ Hj), (lookup_present _ _ _ Hnd Hin).
    split; [reflexivity | cbn; discriminate].
  - intro Hj. rewrite (hello_post_on_object _ _ _ _ Hj). reflexivity.
  - intro Hj. rewrite (hello_post_on_object _ _ _ _ Hj). reflexivity.
  - intro Hj. rewrite (hello_post_on_object _ _ _ _ Hj). reflexivity.
  - intro Hj. rewrite (hello_post_on_object _ _ _ _ Hj). reflexivity.
Qed.

Lemma hello_post_present_name_wins_witness :
  returned
    (routes.hello_post Example.env
       (Example.request "POST" ["hello"]
          (inr (Py.Dict [("name", Py.None_); ("age", Py.Int 36)])))
       Example.warm) =
  inr (mkResponse 200 "application/json"
         (Json (Py.Dict [("message", Py.Str "Hello, None!")])))
  /\
  returned
    (routes.hello_post Example.env
       (Example.request "POST" ["hello"] (inr (Py.Dict [("name", Py.Int 42)])))
       Example.warm) =
  inr (mkResponse 200 "application/json"
         (Json (Py.Dict [("message", Py.Str "Hello, 42!")]))).
Proof.
  split.
  - refine (proj1 (proj1 (proj2 (hello_post_present_name_wins Example.env
                  (Example.request "POST" ["hello"]
                     (inr (Py.Dict [("name", Py.None_); ("age", Py.Int 36)])))
                  Example.warm)) [("name", Py.None_); ("age", Py.Int 36)]
                  eq_refl _ (or_introl eq_refl))).
    cbn. repeat constructor; cbn; intuition discriminate.
  - apply (proj1 (proj2 (proj2 (hello_post_present_name_wins Example.env
                  (Example.request "POST" ["hello"] (inr (Py.Dict [("name", Py.Int 42)])))
                  Example.warm)))).
    reflexivity.
Defined.

(** ** The application state *)

(** C6. The handle is [None] from the startup onward: the lifespan hook
    sets it to [None], no request served by the application changes the
    world, and so every world the served application reaches has
    [db = None]. *)
Theorem db_is_always_none :
  forall env w0 app,
    returned (web.create_app env w0) = inr app ->
    (forall w,
        returned (startup (app_lifespan app) w) = inr tt
        /\ db (state (after (startup (app_lifespan app) w))) = Some NoneHandle)
    /\ (forall req w, snd (serve app req w) = w)
    /\ (forall w, reachable app w -> db (state w) = Some NoneHandle).
Proof.
  intros env w0 app Happ. rewrite (create_app_inv _ _ _ Happ).
  split; [ | split].
  - intro w. split; reflexivity.
  - intros req w. apply serve_frame.
  - intro w. apply reachable_db_none.
Qed.

Lemma db_is_always_none_witness :
  db (state
        (snd (serve (the_app Example.env)
                (Example.request "GET" ["api"; "duckdb-example"] Example.no_body)
                (after (startup (app_lifespan (the_app Example.env)) Example.cold)))))
  = Some NoneHandle.
Proof.
  apply (proj2 (proj2 (db_is_always_none Example.env Example.cold
                         (the_app Example.env) eq_refl))).
  apply reach_request. apply reach_startup. reflexivity.
Defined.

(** The database branch does call the database when a connection is set:
    the record of calls tells the two branches apart. *)
Lemma query_with_connection request w c :
  db (state w) = Some (Conn c) ->
  calls (routes.query request w) = [CallSql "SELECT * FROM users"].
Proof.
  destruct w as [[d] f]. cbn. intros ->.
  unfold routes.query, bind, get_db, sql, call, lift. cbn.
  destruct (sql_pl c _); reflexivity.
Qed.

(** C10. While the handle is [None] the database branch of
    [duckdb_example] is not taken: the inner [query] builds the literal
    table, and the handler makes no call to [db.sql] (no call at all). *)
Theorem duckdb_example_never_queries :
  forall request w,
    db (state w) = Some NoneHandle ->
    routes.query request w = mkOutcome (inr users_records) w []
    /\ calls (routes.duckdb_example request w) = []
    /\ forall q, ~ In (CallSql q) (calls (routes.duckdb_example request w)).
Proof.
  intros request [[d] f] H. cbn in H. subst d.
  split; [reflexivity | ]. split; [reflexivity | ].
  intros q Hin. exact Hin.
Qed.

Lemma duckdb_example_never_queries_witness :
  calls (routes.duckdb_example
           (Example.request "GET" ["duckdb-example"] Example.no_body) Example.warm) = [].
Proof.
  apply (duckdb_example_never_queries
           (Example.request "GET" ["duckdb-example"] Example.no_body) Example.warm).
  reflexivity.
Defined.

(** ** Repeated calls and the request's input *)

(** C7. Every GET handler of the API, called twice in a row on a request,
    leaves the world as it was after each call and returns the same result;
    the bodies of the two responses are the same bytes. *)
Theorem get_handlers_repeat :
  forall env rt,
    In (ARoute rt) (routes.api_routes env) ->
    mem "GET" (methods rt) = true ->
    forall req w,
      let first := endpoint rt req w in
      let second := endpoint rt req (after first) in
      after first = w
      /\ after second = w
      /\ returned second = returned first
      /\ (forall a b,
             returned first = inr a ->
             returned second = inr b ->
             body_bytes env a = body_bytes env b).
Proof.
  intros env rt Hin _ req w first second.
  pose proof (proj1 (Forall_forall _ _) (api_routes_preserve env) _ Hin) as Hp.
  cbn [route_preserves] in Hp.
  assert (Hw : after first = w) by apply Hp.
  assert (Hs : second = first) by (subst second; rewrite Hw; reflexivity).
  rewrite Hs.
  split; [exact Hw | ]. split; [exact Hw | ]. split; [reflexivity | ].
  intros a b Ha Hb. rewrite Ha in Hb. injection Hb as <-. reflexivity.
Qed.

Lemma get_handlers_repeat_witness :
  let rt := mkRoute ["polars-example"] routes.polars_example ["GET"; "HEAD"] in
  let req := Example.request "GET" ["polars-example"] Example.no_body in
  let first := endpoint rt req Example.warm in
  let second := endpoint rt req (after first) in
  after first = Example.warm
  /\ after second = Example.warm
  /\ returned second = returned first
  /\ (forall a b,
         returned first = inr a ->
         returned second = inr b ->
         body_bytes Example.env a = body_bytes Example.env b).
Proof.
  apply (get_handlers_repeat Example.env
           (mkRoute ["polars-example"] routes.polars_example ["GET"; "HEAD"])).
  - cbn. do 5 right. left. reflexivity.
  - reflexivity.
Defined.

(** C8. The two tabular handlers do not look at the request: on one world
    any two requests get the same outcome; [polars_example] gives one
    result on every world, and [duckdb_example] gives one result on every
    world whose handle is [None]. *)
Theorem tabular_handlers_ignore_request :
  (forall r1 r2 w, routes.duckdb_example r1 w = routes.duckdb_example r2 w)
  /\ (forall r1 r2 w, routes.polars_example r1 w = routes.polars_example r2 w)
  /\ (forall r1 r2 w1 w2,
         returned (routes.polars_example r1 w1) = returned (routes.polars_example r2 w2))
  /\ (forall r1 r2 w1 w2,
         db (state w1) = Some NoneHandle ->
         db (state w2) = Some NoneHandle ->
         returned (routes.duckdb_example r1 w1) = returned (routes.duckdb_example r2 w2)).
Proof.
  repeat split.
  intros r1 r2 [[d1] f1] [[d2] f2] H1 H2. cbn in H1, H2. subst d1 d2. reflexivity.
Qed.

Lemma tabular_handlers_ignore_request_witness :
  returned (routes.duckdb_example
              (Example.request "GET" ["duckdb-example"] Example.no_body) Example.warm) =
  returned (routes.duckdb_example
              (mkRequest "GET" ["duckdb-example"] "limit=1" [("x-user", "eve")]
                 "{}" (inr (Py.Dict [])))
              (mkWorld (mkState (Some NoneHandle)) (fun _ => None))).
Proof.
  apply (proj2 (proj2 (proj2 tabular_handlers_ignore_request))).
  - reflexivity.
  - reflexivity.
Defined.

(** ** The static routes *)








(** With another method the static files application refuses the request,
    once it has seen its directory. *)
Lemma StaticFiles_call_other_method env s req w :
  fs w (static_directory s) = Some Directory ->
  mem (method req) ["GET"; "HEAD"] = false ->
  StaticFiles_call env s req w =
  mkOutcome (inl (Py.HTTPException 405)) w [CallStat (static_directory s)].
Proof.
  intros Hd Hm. unfold StaticFiles_call, isdir, bind, call.
  cbn [returned after calls]. rewrite Hd. cbn [returned after calls].
  rewrite Hm. reflexivity.
Qed.

(** What the application does with a request below [/assets]. *)
Lemma assets_route env m rest qs hs b j w :
  Router (app_routes (the_app env)) (mkRequest m ("assets" :: rest) qs hs b j) w =
  StaticFiles_call env (mkStaticFiles (web.static_dir env / "assets")%path)
    (mkRequest m rest qs hs b j) w.
Proof. reflexivity. Qed.



(** ** The whole application, twice *)

(** Whatever the route, a request served twice in a row gets the same
    response, and the world is the one the first request found. *)
Lemma serve_twice env req w :
  serve (the_app env) req (snd (serve (the_app env) req w)) =
  serve (the_app env) req w.
Proof. rewrite serve_frame. reflexivity. Qed.

(** * Further properties of the code *)

(** ** [hello_post] and the bodies it cannot greet *)

(** What is found under a key is one of the dict's pairs. *)
Lemma lookup_some_in key v d : Py.lookup key d = Some v -> In (key, v) d.
Proof.
  induction d as [ | [k v'] d IH]; cbn [Py.lookup]; [discriminate | ].
  destruct (String.eqb k key) eqn:E.
  - apply String.eqb_eq in E. intro H. injection H as ->. left. subst k.
    reflexivity.
  - intro H. right. apply IH. exact H.
Qed.

Lemma lookup_none_absent key d :
  Py.lookup key d = None -> forall v, ~ In (key, v) d.
Proof.
  induction d as [ | [k v'] d IH]; cbn [Py.lookup]; intros H v Hin;
    [destruct Hin | ].
  destruct (String.eqb k key) eqn:E; [discriminate H | ].
  destruct Hin as [Heq | Hin].
  - injection Heq as -> _. rewrite String.eqb_refl in E. discriminate E.
  - exact (IH H v Hin).
Qed.

(** X1. [hello_post] returns a response exactly when the body decodes to a
    JSON object and the name it holds, if it holds one, gives a greeting
    that can be encoded as UTF-8: a body that does not decode, or that
    decodes to a list, a string, a number, a boolean or null, makes the
    handler raise, and so does a name that holds a lone surrogate. *)
Theorem hello_post_answers_objects_only :
  forall env request w,
    ((exists resp, returned (routes.hello_post env request w) = inr resp) ->
     exists d, json request = inr (Py.Dict d))
    /\ (forall d,
           json request = inr (Py.Dict d) ->
           NoDup (map fst d) ->
           ((exists resp, returned (routes.hello_post env request w) = inr resp)
            <-> (forall v, In ("name", v) d ->
                           Py.encodable (Py.str (repr env) v) = true))).
Proof.
  intros env request w. split.
  - intros [resp H].
    destruct (json request) as [e | v] eqn:Hj.
    + unfold routes.hello_post, bind, lift in H. cbn in H. rewrite Hj in H.
      discriminate H.
    + destruct v;
        try (unfold routes.hello_post, bind, lift in H; cbn in H;
             rewrite Hj in H; discriminate H).
      exists d. reflexivity.
  - intros d Hj Hnd.
    rewrite (hello_post_on_object _ _ _ _ Hj), JSONResponse_greeting.
    destruct (Py.lookup "name" d) as [v0 | ] eqn:E.
    + split.
      * intros [resp H] v Hin.
        rewrite (lookup_present _ _ _ Hnd Hin) in E. injection E as ->.
        destruct (Py.encodable _); [reflexivity | discriminate H].
      * intro H. rewrite (H v0 (lookup_some_in _ _ _ E)).
        eexists; reflexivity.
    + split.
      * intros _ v Hin. destruct (lookup_none_absent _ _ E v Hin).
      * intros _. eexists; reflexivity.
Qed.

Lemma hello_post_answers_objects_only_witness :
  exists resp,
    returned
      (routes.hello_post Example.env
         (Example.request "POST" ["hello"] (inr (Py.Dict [("name", Py.Str "Ada")])))
         Example.warm) = inr resp.
Proof.
  refine (proj2 (proj2 (hello_post_answers_objects_only Example.env
                          (Example.request "POST" ["hello"]
                             (inr (Py.Dict [("name", Py.Str "Ada")])))
                          Example.warm) [("name", Py.Str "Ada")] eq_refl _) _).
  - cbn. repeat constructor. cbn. intuition.
  - intros v [H | []]. injection H as <-. reflexivity.
Defined.

(** X2. [POST /api/hello] with a body that is not valid JSON, or that is
    valid JSON but not an object, is answered with status 500 and the
    world is left as it was: the handler validates nothing. *)
Theorem hello_post_bad_body_is_500 :
  forall env w0 app,
    returned (web.create_app env w0) = inr app ->
    forall request w,
      method request = "POST" ->
      url_path request = ["api"; "hello"] ->
      (json request = inl Py.JSONDecodeError
       \/ exists v, json request = inr v /\ forall d, v <> Py.Dict d) ->
      serve app request w = (PlainTextResponse "Internal Server Error" 500, w).
Proof.
  intros env w0 app Happ request w Hm Hp Hj.
  rewrite (create_app_inv _ _ _ Happ).
  destruct request as [m p qs hs b j]; cbn in Hm, Hp, Hj; subst m p.
  destruct Hj as [-> | [v [-> Hv]]]; [reflexivity | ].
  destruct v; try reflexivity. exfalso. apply (Hv d). reflexivity.
Qed.

Lemma hello_post_bad_body_is_500_witness :
  serve (the_app Example.env)
    (Example.request "POST" ["api"; "hello"] (inr (Py.List [Py.Str "Ada"])))
    Example.warm =
  (PlainTextResponse "Internal Server Error" 500, Example.warm).
Proof.
  apply (hello_post_bad_body_is_500 Example.env Example.cold (the_app Example.env)
           eq_refl).
  - reflexivity.
  - reflexivity.
  - right. exists (Py.List [Py.Str "Ada"]). split; [reflexivity | ].
    intros d H. discriminate H.
Defined.

(** ** [duckdb_example] beyond the literal table *)

(** X3. Before the lifespan has run there is no attribute [db]: the handler
    raises [AttributeError] without building any table, and
    [GET /api/duckdb-example] is answered with status 500. *)
Theorem duckdb_example_before_startup :
  forall request w,
    db (state w) = None ->
    routes.duckdb_example request w = mkOutcome (inl (Py.AttributeError "db")) w []
    /\ forall env w0 app,
        returned (web.create_app env w0) = inr app ->
        method request = "GET" ->
        url_path request = ["api"; "duckdb-example"] ->
        serve app request w = (PlainTextResponse "Internal Server Error" 500, w).
Proof.
  intros request [[d] f] H. cbn in H. subst d. split; [reflexivity | ].
  intros env w0 app Happ Hm Hp. rewrite (create_app_inv _ _ _ Happ).
  destruct request as [m p qs hs b j]; cbn in Hm, Hp; subst m p. reflexivity.
Qed.

Lemma duckdb_example_before_startup_witness :
  routes.duckdb_example
    (Example.request "GET" ["api"; "duckdb-example"] Example.no_body) Example.cold =
  mkOutcome (inl (Py.AttributeError "db")) Example.cold [].
Proof.
  apply (proj1 (duckdb_example_before_startup
                  (Example.request "GET" ["api"; "duckdb-example"] Example.no_body)
                  Example.cold eq_refl)).
Defined.

(** [JSONResponse] reaches nothing and changes nothing. *)
Lemma JSONResponse_pure v w :
  JSONResponse v w = mkOutcome (returned (JSONResponse v w)) w [].
Proof.
  unfold JSONResponse.
  destruct (Py.finite_floats v); [ | reflexivity].
  destruct (Py.encodable_strings v); reflexivity.
Qed.

(** The one query [duckdb_example] makes when a connection is set, and what
    it does with the answer. *)
Lemma duckdb_example_on_connection request w c :
  db (state w) = Some (Conn c) ->
  routes.duckdb_example request w =
  match sql_pl c "SELECT * FROM users" with
  | inl e => mkOutcome (inl e) w [CallSql "SELECT * FROM users"]
  | inr df =>
      mkOutcome (returned (JSONResponse (pl.to_dicts df) w)) w
        [CallSql "SELECT * FROM users"]
  end.
Proof.
  destruct w as [[d] f]. cbn [state db]. intros ->.
  unfold routes.duckdb_example, run_in_threadpool, routes.query, bind, get_db,
    sql, call, lift. cbn -[JSONResponse pl.to_dicts].
  destruct (sql_pl c _) as [e | df]; cbn -[JSONResponse pl.to_dicts];
    [reflexivity | ].
  rewrite (JSONResponse_pure (pl.to_dicts df)). reflexivity.
Qed.

(** A value that [JSONResponse] accepts is answered with status 200. *)
Lemma JSONResponse_compliant v w :
  Py.json_compliant v = true ->
  JSONResponse v w = mkOutcome (inr (mkResponse 200 "application/json" (Json v))) w [].
Proof.
  unfold Py.json_compliant, JSONResponse. intro H.
  apply andb_true_iff in H. destruct H as [-> ->]. reflexivity.
Qed.

(** [to_dicts] gives one dict per row, keyed by the columns in order. *)
Lemma to_dicts_shape df :
  exists records,
    pl.to_dicts df = Py.List records
    /\ List.length records = pl.height df
    /\ Forall (fun r => keys r = map fst df) records.
Proof.
  unfold pl.to_dicts. eexists. split; [reflexivity | split].
  - rewrite length_map, length_seq. reflexivity.
  - apply Forall_forall. intros r Hr. apply in_map_iff in Hr.
    destruct Hr as [i [<- _]]. unfold pl.row, keys.
    rewrite map_map. reflexivity.
Qed.

(** X4. With a connection set, [duckdb_example] runs the one query
    [SELECT * FROM users] and nothing else; a failure of the query is the
    failure of the handler, and a relation whose values JSON can carry comes
    back as one record per row, keyed by the relation's columns in order. *)
Theorem duckdb_example_with_connection :
  forall request w c,
    db (state w) = Some (Conn c) ->
    calls (routes.duckdb_example request w) = [CallSql "SELECT * FROM users"]
    /\ after (routes.duckdb_example request w) = w
    /\ (forall e,
           sql_pl c "SELECT * FROM users" = inl e ->
           returned (routes.duckdb_example request w) = inl e)
    /\ (forall df,
           sql_pl c "SELECT * FROM users" = inr df ->
           Py.json_compliant (pl.to_dicts df) = true ->
           exists records,
             returned (routes.duckdb_example request w) =
             inr (mkResponse 200 "application/json" (Json (Py.List records)))
             /\ List.length records = pl.height df
             /\ Forall (fun r => keys r = map fst df) records).
Proof.
  intros request w c H. rewrite (duckdb_example_on_connection _ _ _ H).
  split; [ | split; [ | split]].
  - destruct (sql_pl c _) as [e | df]; reflexivity.
  - destruct (sql_pl c _) as [e | df]; reflexivity.
  - intros e ->. reflexivity.
  - intros df -> Hc. rewrite (JSONResponse_compliant _ _ Hc).
    destruct (to_dicts_shape df) as [records [-> Hs]].
    exists records. split; [reflexivity | exact Hs].
Qed.

Lemma duckdb_example_with_connection_witness :
  calls (routes.duckdb_example
           (Example.request "GET" ["duckdb-example"] Example.no_body) Site.connected) =
  [CallSql "SELECT * FROM users"]
  /\ returned (routes.duckdb_example
                 (Example.request "GET" ["duckdb-example"] Example.no_body)
                 Site.connected) =
     inr (mkResponse 200 "application/json"
            (Json (Py.List
                     [ Py.Dict [("id", Py.Int 1); ("login", Py.Str "ann")];
                       Py.Dict [("id", Py.Int 2); ("login", Py.Str "bo")] ]))).
Proof.
  split.
  - apply (proj1 (duckdb_example_with_connection
                    (Example.request "GET" ["duckdb-example"] Example.no_body)
                    Site.connected Site.users eq_refl)).
  - reflexivity.
Defined.

(** ** The table of API routes *)

Lemma path_eqb_eq p q : path_eqb p q = true <-> p = q.
Proof.
  revert q. induction p as [ | x p IH]; intros [ | y q]; cbn;
    try (split; [discriminate | discriminate]).
  - split; reflexivity.
  - rewrite andb_true_iff, String.eqb_eq, IH. split.
    + intros [-> ->]. reflexivity.
    + intro H. injection H as -> ->. split; reflexivity.
Qed.

Lemma path_eqb_neq p q : p <> q -> path_eqb p q = false.
Proof.
  intro H. destruct (path_eqb p q) eqn:E; [ | reflexivity].
  apply path_eqb_eq in E. contradiction.
Qed.

Lemma mem_get_head m : mem m ["GET"; "HEAD"] = true -> m = "GET" \/ m = "HEAD".
Proof.
  unfold mem. cbn. rewrite !orb_true_iff, !String.eqb_eq.
  intros [H | [H | H]]; [left; exact H | right; exact H | discriminate H].
Qed.

Lemma mem_post m : mem m ["POST"] = true -> m = "POST".
Proof.
  unfold mem. cbn. rewrite orb_true_iff, String.eqb_eq.
  intros [H | H]; [exact H | discriminate H].
Qed.

(** A router none of whose routes matches falls back on the partial match
    it has, and on 404 without one. *)
Lemma dispatch_all_none rs req :
  (forall r, In r rs -> fst (matches r req) = NONE) ->
  forall partial, dispatch rs partial req = dispatch [] partial req.
Proof.
  induction rs as [ | r rs IH]; intros H partial; [reflexivity | ].
  cbn [dispatch]. pose proof (H r (or_introl eq_refl)) as Hr.
  destruct (matches r req) as [[ | | ] child]; cbn in Hr; try discriminate Hr.
  apply IH. intros r' Hin. apply H. right. exact Hin.
Qed.

(** Once a partial match is kept, routes that do not match in full leave
    it in charge. *)
Lemma dispatch_keeps_partial rs req r0 :
  (forall r, In r rs -> fst (matches r req) <> FULL) ->
  dispatch rs (Some r0) req = handle r0 req.
Proof.
  induction rs as [ | r rs IH]; intro H; [reflexivity | ].
  cbn [dispatch]. pose proof (H r (or_introl eq_refl)) as Hr.
  destruct (matches r req) as [[ | | ] child]; cbn in Hr;
    try (apply IH; intros r' Hin; apply H; right; exact Hin).
  contradiction Hr. reflexivity.
Qed.

(** X5. No route of [api_routes] is shadowed: a request whose path is the
    path of a route and whose method the route allows is handled by that
    route's own handler; so [POST /hello] reaches [hello_post] although the
    GET route for the same path comes first. *)
Theorem api_routes_reach_their_handlers :
  forall env rt,
    In (ARoute rt) (routes.api_routes env) ->
    forall req w,
      url_path req = route_path rt ->
      mem (method req) (methods rt) = true ->
      Router (routes.api_routes env) req w = endpoint rt req w.
Proof.
  intros env rt Hin [m p qs hs b j] w Hp Hm. cbn [url_path method] in Hp, Hm.
  cbn in Hin.
  destruct Hin as [H | [H | [H | [H | [H | [H | []]]]]]];
    injection H as <-; cbn in Hp, Hm; subst p;
    first [ apply mem_get_head in Hm; destruct Hm as [-> | ->]; reflexivity
          | apply mem_post in Hm; subst m; reflexivity ].
Qed.

Lemma api_routes_reach_their_handlers_witness :
  Router (routes.api_routes Example.env)
    (Example.request "POST" ["hello"] (inr (Py.Dict []))) Example.warm =
  routes.hello_post Example.env
    (Example.request "POST" ["hello"] (inr (Py.Dict []))) Example.warm.
Proof.
  apply (api_routes_reach_their_handlers Example.env
           (mkRoute ["hello"] (routes.hello_post Example.env) ["POST"])).
  - cbn. right. left. reflexivity.
  - reflexivity.
  - reflexivity.
Defined.

Lemma matches_route rt req :
  fst (matches (ARoute rt) req) =
  if path_eqb (route_path rt) (url_path req)
  then (if mem (method req) (methods rt) then FULL else PARTIAL)
  else NONE.
Proof.
  cbn [matches]. destruct (path_eqb _ _); [ | reflexivity].
  destruct (mem _ _); reflexivity.
Qed.

(** A partial match is a route whose methods exclude the request's. *)
Lemma handle_partial r req :
  fst (matches r req) = PARTIAL -> handle r req = raise (Py.HTTPException 405).
Proof.
  destruct r as [rt | prefix app]; cbn [matches handle].
  - destruct (path_eqb _ _); [ | discriminate].
    destruct (mem _ _); [discriminate | reflexivity].
  - destruct (strip_prefix _ _); discriminate.
Qed.

Lemma dispatch_partial_405 rs req :
  (forall r, In r rs -> fst (matches r req) <> FULL) ->
  (exists r, In r rs /\ fst (matches r req) = PARTIAL) ->
  dispatch rs None req = raise (Py.HTTPException 405).
Proof.
  induction rs as [ | r rs IH]; intros Hfull [r1 [Hin Hp]]; [destruct Hin | ].
  assert (Htail : forall r', In r' rs -> fst (matches r' req) <> FULL)
    by (intros r' H'; apply Hfull; right; exact H').
  cbn [dispatch]. destruct (matches r req) as [[ | | ] child] eqn:E.
  - apply IH; [exact Htail | ]. destruct Hin as [<- | Hin].
    + rewrite E in Hp. discriminate Hp.
    + exists r1. split; assumption.
  - rewrite (dispatch_keeps_partial _ _ _ Htail). apply handle_partial.
    rewrite E. reflexivity.
  - exfalso. apply (Hfull r (or_introl eq_refl)). rewrite E. reflexivity.
Qed.

Lemma api_routes_are_routes env r :
  In r (routes.api_routes env) -> exists rt, r = ARoute rt.
Proof.
  cbn. intros [H | [H | [H | [H | [H | [H | []]]]]]]; subst r; eexists; reflexivity.
Qed.

(** X6. A request for the path of an API route with a method that no route
    of that path allows is refused with the HTTP error 405, and no handler
    runs: [PUT /hello] and [POST /polars-example] are refused. *)
Theorem api_routes_refuse_other_methods :
  forall env req w,
    (exists rt,
        In (ARoute rt) (routes.api_routes env) /\ route_path rt = url_path req) ->
    (forall rt,
        In (ARoute rt) (routes.api_routes env) ->
        route_path rt = url_path req ->
        mem (method req) (methods rt) = false) ->
    Router (routes.api_routes env) req w =
    mkOutcome (inl (Py.HTTPException 405)) w [].
Proof.
  intros env req w [rt0 [Hin0 Hp0]] Hno. unfold Router.
  rewrite dispatch_partial_405; [reflexivity | | ].
  - intros r Hin. destruct (api_routes_are_routes _ _ Hin) as [rt ->].
    rewrite matches_route.
    destruct (path_eqb (route_path rt) (url_path req)) eqn:E; [ | discriminate].
    apply path_eqb_eq in E. rewrite (Hno rt Hin E). discriminate.
  - exists (ARoute rt0). split; [exact Hin0 | ].
    rewrite matches_route, (proj2 (path_eqb_eq _ _) Hp0), (Hno rt0 Hin0 Hp0).
    reflexivity.
Qed.

Lemma api_routes_refuse_other_methods_witness :
  Router (routes.api_routes Example.env)
    (Example.request "PUT" ["hello"] (inr (Py.Dict []))) Example.warm =
  mkOutcome (inl (Py.HTTPException 405)) Example.warm [].
Proof.
  apply (api_routes_refuse_other_methods Example.env).
  - exists (mkRoute ["hello"] routes.hello ["GET"; "HEAD"]).
    split; [left; reflexivity | reflexivity].
  - intros rt Hin Hp. cbn in Hin, Hp.
    destruct Hin as [H | [H | [H | [H | [H | [H | []]]]]]];
      injection H as <-; first [reflexivity | discriminate Hp].
Defined.

(** X7. A path that is the path of no API route is answered with the HTTP
    error 404, whatever the method, and no handler runs.  (The segments are
    those of a path without a trailing slash; such a path the framework
    redirects before the routes are tried again.) *)
Theorem api_routes_unknown_path :
  forall env req w,
    ~ In "" (url_path req) ->
    (forall rt,
        In (ARoute rt) (routes.api_routes env) -> route_path rt <> url_path req) ->
    Router (routes.api_routes env) req w =
    mkOutcome (inl (Py.HTTPException 404)) w [].
Proof.
  intros env req w _ Hno. unfold Router.
  rewrite dispatch_all_none; [reflexivity | ].
  intros r Hin. destruct (api_routes_are_routes _ _ Hin) as [rt ->].
  rewrite matches_route, (path_eqb_neq _ _ (Hno rt Hin)). reflexivity.
Qed.

Lemma api_routes_unknown_path_witness :
  Router (routes.api_routes Example.env)
    (Example.request "GET" ["users"] Example.no_body) Example.warm =
  mkOutcome (inl (Py.HTTPException 404)) Example.warm [].
Proof.
  apply (api_routes_unknown_path Example.env).
  - cbn. intros [H | []]. discriminate H.
  - intros rt Hin Hp. cbn in Hin.
    destruct Hin as [H | [H | [H | [H | [H | [H | []]]]]]];
      injection H as <-; discriminate Hp.
Defined.

(** ** [create_app] and the files it serves *)

(** X8. [create_app] returns an application exactly when the directory
    [assets] of the built front end exists while the application is
    assembled; otherwise it raises [RuntimeError].  Either way it changes
    nothing, and it does not look for [vite.svg] or [index.html]. *)
Theorem create_app_needs_assets :
  forall env w0,
    ((exists app, returned (web.create_app env w0) = inr app)
     <-> fs w0 (web.static_dir env / "assets")%path = Some Directory)
    /\ (fs w0 (web.static_dir env / "assets")%path <> Some Directory ->
        returned (web.create_app env w0) =
        inl (Py.RuntimeError "Directory does not exist"))
    /\ after (web.create_app env w0) = w0
    /\ calls (web.create_app env w0) = [CallStat (web.static_dir env / "assets")%path].
Proof.
  intros env w0.
  unfold web.create_app, StaticFiles_, isdir, bind, call. cbn -[web.static_dir join].
  destruct (fs w0 (web.static_dir env / "assets")%path) as [[c | ] | ];
    cbn -[web.static_dir join].
  - split; [split; [intros [app H]; discriminate H | discriminate] | ].
    split; [reflexivity | split; reflexivity].
  - split; [split; [reflexivity | eexists; reflexivity] | ].
    split; [intro H; contradiction H; reflexivity | split; reflexivity].
  - split; [split; [intros [app H]; discriminate H | discriminate] | ].
    split; [reflexivity | split; reflexivity].
Qed.

Lemma create_app_needs_assets_witness :
  returned (web.create_app Example.env (mkWorld (mkState None) (fun _ => None))) =
  inl (Py.RuntimeError "Directory does not exist").
Proof.
  apply (proj1 (proj2 (create_app_needs_assets Example.env
                         (mkWorld (mkState None) (fun _ => None))))).
  discriminate.
Defined.

Lemma parent_join p x : parent (p ++ [x])%list = p.
Proof. unfold parent. apply removelast_last. Qed.

(** X9. The built front end is looked for four levels above the module:
    with [__init__.py] at [root/a/b/c/__init__.py] the static directory is
    [root/frontend/dist], and the templates of [routes.py] are in the
    directory [templates] beside it. *)
Theorem static_dir_location :
  forall env root a b c file,
    init_file env = (root ++ [a; b; c; file])%list ->
    web.static_dir env = (root ++ ["frontend"; "dist"])%list
    /\ (forall dir f,
           routes_file env = (dir ++ [f])%list ->
           directory (routes.templates env) = (dir ++ ["templates"])%list).
Proof.
  intros env root a b c file H. split.
  - unfold web.static_dir. rewrite H.
    change (root ++ [a; b; c; file])%list
      with (root ++ [a] ++ [b] ++ [c] ++ [file])%list.
    rewrite !app_assoc, !parent_join. unfold join.
    rewrite <- app_assoc. reflexivity.
  - intros dir f Hr. unfold routes.templates. cbn [directory].
    rewrite Hr, parent_join. reflexivity.
Qed.

Lemma static_dir_location_witness :
  web.static_dir Example.env = ["srv"; "backend"; "frontend"; "dist"].
Proof.
  apply (proj1 (static_dir_location Example.env ["srv"; "backend"]
                  "old" "boilerplate_app" "web" "__init__.py" eq_refl)).
Defined.








(** X12. The static routes are read-only.  A request to [/] or to
    [/vite.svg] with a method other than GET and HEAD is refused with the
    HTTP error 405 before the file system is looked at; so is a request for
    a file path below [/assets], once the mount has seen that its directory
    is there. *)
Theorem static_routes_are_read_only :
  forall env w0 app,
    returned (web.create_app env w0) = inr app ->
    forall req w,
      mem (method req) ["GET"; "HEAD"] = false ->
      ((url_path req = [] \/ url_path req = ["vite.svg"]) ->
       Router (app_routes app) req w = mkOutcome (inl (Py.HTTPException 405)) w []
       /\ serve app req w = (PlainTextResponse "Method Not Allowed" 405, w))
      /\ (forall rest,
             url_path req = "assets" :: rest ->
             rest <> [] ->
             forallb plain_segment rest = true ->
             fs w (web.static_dir env / "assets")%path = Some Directory ->
             serve app req w = (PlainTextResponse "Method Not Allowed" 405, w)).
Proof.
  intros env w0 app Happ req w Hm. rewrite (create_app_inv _ _ _ Happ).
  destruct req as [m p qs hs b j]. cbn [method url_path] in *.
  split.
  - intro Hp.
    assert (H : Router (app_routes (the_app env))
                  (mkRequest m p qs hs b j) w =
                mkOutcome (inl (Py.HTTPException 405)) w []).
    { destruct Hp as [-> | ->].
      - unfold Router, the_app. cbn -[mem web.static_dir join web.index].
        change (mem "GET" ["GET"]) with true. cbv iota. rewrite Hm. reflexivity.
      - unfold Router, the_app. cbn -[mem web.static_dir join web.vite_svg].
        change (mem "GET" ["GET"]) with true. cbv iota. rewrite Hm. reflexivity. }
    split; [exact H | ]. unfold serve. rewrite H. reflexivity.
  - intros rest -> _ _ Hd. unfold serve. rewrite assets_route.
    rewrite StaticFiles_call_other_method; [reflexivity | exact Hd | exact Hm].
Qed.

Lemma static_routes_are_read_only_witness :
  serve (the_app Example.env)
    (Example.request "DELETE" ["assets"; "app.js"] Example.no_body) Site.world =
  (PlainTextResponse "Method Not Allowed" 405, Site.world)
  /\ serve (the_app Example.env)
       (Example.request "POST" ["vite.svg"] Example.no_body) Site.world =
     (PlainTextResponse "Method Not Allowed" 405, Site.world).
Proof.
  split.
  - refine (proj2 (static_routes_are_read_only Example.env Example.cold
                     (the_app Example.env) eq_refl
                     (Example.request "DELETE" ["assets"; "app.js"] Example.no_body)
                     Site.world eq_refl) ["app.js"] eq_refl _ eq_refl eq_refl).
    discriminate.
  - apply (proj2 (proj1 (static_routes_are_read_only Example.env Example.cold
                     (the_app Example.env) eq_refl
                     (Example.request "POST" ["vite.svg"] Example.no_body)
                     Site.world eq_refl) (or_intror eq_refl))).
Defined.

(** ** What the handlers reach outside the program *)

Lemma calls_hello_post env request w : calls (routes.hello_post env request w) = [].
Proof.
  destruct (json request) as [e | v] eqn:Hj.
  - unfold routes.hello_post, bind, lift. cbn. rewrite Hj. reflexivity.
  - destruct v;
      try (unfold routes.hello_post, bind, lift; cbn; rewrite Hj; reflexivity).
    rewrite (hello_post_on_object _ _ _ _ Hj), JSONResponse_pure. reflexivity.
Qed.

Lemma calls_TemplateResponse env t name request w :
  calls (TemplateResponse env t name request w) = [CallRender name].
Proof.
  unfold TemplateResponse, bind, call, lift. cbn.
  destruct (fs w _) as [[text | ] | ]; cbn; try reflexivity.
  destruct (jinja env text request (state w)); reflexivity.
Qed.

Lemma calls_duckdb_example request w :
  calls (routes.duckdb_example request w) =
  match db (state w) with
  | Some (Conn _) => [CallSql "SELECT * FROM users"]
  | _ => []
  end.
Proof.
  destruct (db (state w)) as [[ | c] | ] eqn:E.
  - destruct w as [[d] f]. cbn in E. subst d. reflexivity.
  - rewrite (duckdb_example_on_connection _ _ _ E).
    destruct (sql_pl c _) as [e | df]; reflexivity.
  - destruct w as [[d] f]. cbn in E. subst d. reflexivity.
Qed.

(** X13. [hello], [hello_post] and [polars_example] reach nothing outside
    the program: on every request and in every world they open no file,
    render no template and query no database, whether they return or
    raise. *)
Theorem json_handlers_make_no_call :
  forall env request w,
    calls (routes.hello request w) = []
    /\ calls (routes.hello_post env request w) = []
    /\ calls (routes.polars_example request w) = [].
Proof.
  intros env request w.
  split; [reflexivity | split; [apply calls_hello_post | reflexivity]].
Qed.

(** X14. The only SQL the API ever issues is the fixed text
    [SELECT * FROM users]: a query is made by [duckdb_example] alone, only
    when a connection is set, and nothing of the request enters it. *)
Theorem api_issues_only_the_fixed_query :
  forall env rt,
    In (ARoute rt) (routes.api_routes env) ->
    forall req w q,
      In (CallSql q) (calls (endpoint rt req w)) ->
      q = "SELECT * FROM users"
      /\ route_path rt = ["duckdb-example"]
      /\ exists c, db (state w) = Some (Conn c).
Proof.
  intros env rt Hin req w q Hq. cbn in Hin.
  destruct Hin as [H | [H | [H | [H | [H | [H | []]]]]]];
    injection H as <-; cbn [endpoint route_path] in *.
  - destruct Hq.
  - rewrite calls_hello_post in Hq. destruct Hq.
  - unfold routes.hello_htmx in Hq. rewrite calls_TemplateResponse in Hq.
    destruct Hq as [Hq | []]. discriminate Hq.
  - unfold routes.main_content in Hq. rewrite calls_TemplateResponse in Hq.
    destruct Hq as [Hq | []]. discriminate Hq.
  - rewrite calls_duckdb_example in Hq.
    destruct (db (state w)) as [[ | c] | ]; try (destruct Hq; fail).
    destruct Hq as [Hq | []]. injection Hq as <-.
    split; [reflexivity | split; [reflexivity | eexists; reflexivity]].
  - destruct Hq.
Qed.

Lemma api_issues_only_the_fixed_query_witness :
  "SELECT * FROM users" = "SELECT * FROM users"
  /\ ["duckdb-example"] = ["duckdb-example"]
  /\ exists c, db (state Site.connected) = Some (Conn c).
Proof.
  apply (api_issues_only_the_fixed_query Example.env
           (mkRoute ["duckdb-example"] routes.duckdb_example ["GET"; "HEAD"])
           (or_intror (or_intror (or_intror (or_intror (or_introl eq_refl)))))
           (mkRequest "GET" ["duckdb-example"] "q=DROP TABLE users" [] "" Example.no_body)
           Site.connected "SELECT * FROM users").
  left. reflexivity.
Defined.

(** ** The template handlers *)

(** [hello_htmx] and [main_content] each render their own template, read
    from the directory [templates] beside [routes.py], with the request as
    context. *)
Lemma template_handlers_render_their_template :
  forall env request w,
    let dir := (parent (routes_file env) / "templates")%path in
    let outcome name :=
      match fs w (dir / name)%path with
      | Some (File source) =>
          match jinja env source request (state w) with
          | inr html => inr (mkResponse 200 "text/html" (Bytes html))
          | inl e => inl e
          end
      | _ => inl (Py.TemplateNotFound name)
      end in
    returned (routes.hello_htmx env request w) = outcome "hello_htmx.html"
    /\ returned (routes.main_content env request w) = outcome "main_content.html".
Proof.
  intros env request w dir outcome. subst outcome dir.
  unfold routes.hello_htmx, routes.main_content, routes.templates,
    TemplateResponse, bind, call, lift.
  cbn -[parent join].
  split.
  - destruct (fs w _) as [[source | ] | ]; cbn -[parent join]; try reflexivity.
    destruct (jinja env source request (state w)); reflexivity.
  - destruct (fs w _) as [[source | ] | ]; cbn -[parent join]; try reflexivity.
    destruct (jinja env source request (state w)); reflexivity.
Qed.

(** X15. [GET /api/hello-htmx] and [GET /api/main-content]: when the
    template of the page is missing from the directory [templates] beside
    [routes.py], the response is 500 (not 404); when it is there and the
    engine renders it, the response has status 200, type [text/html] and
    the rendering as its body.  Either way the world is left as it was. *)
Theorem template_pages :
  forall env w0 app,
    returned (web.create_app env w0) = inr app ->
    forall req w page name,
      mem (method req) ["GET"; "HEAD"] = true ->
      In (page, name)
        [("hello-htmx", "hello_htmx.html"); ("main-content", "main_content.html")] ->
      url_path req = ["api"; page] ->
      (fs w (parent (routes_file env) / "templates" / name)%path = None ->
       serve app req w = (PlainTextResponse "Internal Server Error" 500, w))
      /\ (forall source html,
             fs w (parent (routes_file env) / "templates" / name)%path =
             Some (File source) ->
             jinja env source (with_path req [page]) (state w) = inr html ->
             serve app req w = (mkResponse 200 "text/html" (Bytes html), w)).
Proof.
  intros env w0 app Happ req w page name Hm Hin Hp.
  rewrite (create_app_inv _ _ _ Happ).
  destruct req as [m p qs hs b j]. cbn [method url_path] in *. subst p.
  apply mem_get_head in Hm.
  assert (Hroute :
            Router (app_routes (the_app env)) (mkRequest m ["api"; page] qs hs b j) w =
            TemplateResponse env (routes.templates env) name
              (mkRequest m [page] qs hs b j) w).
  { destruct Hin as [H | [H | []]]; injection H as <- <-;
      destruct Hm as [-> | ->]; reflexivity. }
  unfold serve. rewrite Hroute, frame_TemplateResponse.
  unfold TemplateResponse, routes.templates, bind, call, lift.
  cbn -[parent join]. split.
  - intros ->. reflexivity.
  - intros source html -> Hj. cbn -[parent join].
    unfold with_path in Hj. cbn in Hj. rewrite Hj. reflexivity.
Qed.

Lemma template_pages_witness :
  serve (the_app Example.env)
    (Example.request "GET" ["api"; "hello-htmx"] Example.no_body) Site.world =
  (mkResponse 200 "text/html" (Bytes "<p>hello</p>"), Site.world)
  /\ serve (the_app Example.env)
       (Example.request "GET" ["api"; "main-content"] Example.no_body) Site.world =
     (PlainTextResponse "Internal Server Error" 500, Site.world).
Proof.
  split.
  - apply (proj2 (template_pages Example.env Example.cold (the_app Example.env)
                    eq_refl
                    (Example.request "GET" ["api"; "hello-htmx"] Example.no_body)
                    Site.world "hello-htmx" "hello_htmx.html" eq_refl
                    (or_introl eq_refl) eq_refl) "<p>hello</p>" "<p>hello</p>").
    + reflexivity.
    + reflexivity.
  - apply (proj1 (template_pages Example.env Example.cold (the_app Example.env)
                    eq_refl
                    (Example.request "GET" ["api"; "main-content"] Example.no_body)
                    Site.world "main-content" "main_content.html" eq_refl
                    (or_intror (or_introl eq_refl)) eq_refl)).
    reflexivity.
Defined.

(** X16. The application serves nothing else: a path of plain segments
    (so without a trailing slash, and without a line feed or another
    control character) that is not [/], not [/vite.svg] and not below
    [/api] or [/assets] is answered 404 whatever the method, and nothing
    outside the program is reached. *)
Theorem other_paths_are_not_found :
  forall env w0 app,
    returned (web.create_app env w0) = inr app ->
    forall req w first rest,
      url_path req = first :: rest ->
      forallb plain_segment (url_path req) = true ->
      first <> "api" ->
      first <> "assets" ->
      url_path req <> ["vite.svg"] ->
      Router (app_routes app) req w = mkOutcome (inl (Py.HTTPException 404)) w []
      /\ serve app req w = (PlainTextResponse "Not Found" 404, w).
Proof.
  intros env w0 app Happ req w first rest Hp _ Hapi Hassets Hvite.
  rewrite (create_app_inv _ _ _ Happ).
  assert (H : Router (app_routes (the_app env)) req w =
              mkOutcome (inl (Py.HTTPException 404)) w []).
  { unfold Router. rewrite dispatch_all_none; [reflexivity | ].
    intros r Hin. cbn in Hin.
    destruct Hin as [<- | [<- | [<- | [<- | []]]]].
    - cbn [matches]. rewrite Hp. cbn [strip_prefix].
      destruct (String.eqb "api" first) eqn:E; [ | reflexivity].
      apply String.eqb_eq in E. congruence.
    - cbn [matches]. rewrite Hp. cbn [strip_prefix].
      destruct (String.eqb "assets" first) eqn:E; [ | reflexivity].
      apply String.eqb_eq in E. congruence.
    - unfold Route_. rewrite matches_route. cbn [route_path].
      rewrite path_eqb_neq; [reflexivity | congruence].
    - unfold Route_. rewrite matches_route. cbn [route_path].
      rewrite path_eqb_neq; [reflexivity | ]. rewrite Hp. discriminate. }
  split; [exact H | ]. unfold serve. rewrite H. reflexivity.
Qed.

Lemma other_paths_are_not_found_witness :
  serve (the_app Example.env)
    (Example.request "GET" ["favicon.ico"] Example.no_body) Site.world =
  (PlainTextResponse "Not Found" 404, Site.world).
Proof.
  refine (proj2 (other_paths_are_not_found Example.env Example.cold
                   (the_app Example.env) eq_refl
                   (Example.request "GET" ["favicon.ico"] Example.no_body)
                   Site.world "favicon.ico" [] eq_refl eq_refl _ _ _)).
  - discriminate.
  - discriminate.
  - discriminate.
Defined.
